(** * saas/api/transactions.py: ledger listings, balances and totals

    A shallow embedding of the API views of [saas/api/transactions.py]:
    the three pagination classes that decorate a page of transactions
    with an aggregate, the queryset mixins, the transfer listing with its
    error translation, and the balance cancellation.

    Conventions of the embedding:
    - a Django [QuerySet] is the list of rows it evaluates to, in order;
      [.filter(...)] is [List.filter] with the lookup as a predicate;
    - Python exceptions are the [Raise] case of [result]; view code runs
      in the monad [M], which threads the ledger and a trace of the calls
      made into [saas.models];
    - [self.attr = ...] on a view or paginator is explicit record update;
      cooperative [super(...).get_queryset()] is a function argument;
    - code that is imported by the file but lives elsewhere
      ([saas.models], [saas.mixins], [rest_framework], [extra_views])
      is a field of the classes [Models] and [Framework]. *)

From Stdlib Require Import ZArith List String Ascii Bool Lia.
Import ListNotations.
Local Open Scope string_scope.
Local Open Scope Z_scope.
Set Warnings "-register-all".

(** ** Python runtime *)

Module Py.

(** The exceptions that cross this file. *)
Inductive exn : Type :=
| ProcessorError (msg : string)      (* saas.backends.ProcessorError *)
| ValidationError (detail : string)  (* rest_framework: ValidationError({'detail': ...}) *)
| NotFound (msg : string)            (* rest_framework: raised on an invalid page *)
| ValueError (msg : string)
| AttributeError (msg : string).

Inductive result (A : Type) : Type :=
| Ok (a : A)
| Raise (e : exn).
Arguments Ok {A} a.
Arguments Raise {A} e.

(** What [request.GET.get(key, default)] can evaluate to in this file. *)
Inductive value : Type :=
| VNone
| VBool (b : bool)
| VStr (s : string).

(** [bool(v)]: Python truthiness. *)
Definition py_bool (v : value) : bool :=
  match v with
  | VNone => false
  | VBool b => b
  | VStr s => negb (String.eqb s "")
  end.

(** [str(err)] of an exception built from one message. *)
Definition py_str (e : exn) : string :=
  match e with
  | ProcessorError m | ValidationError m | NotFound m
  | ValueError m | AttributeError m => m
  end.

Definition lower_ascii (c : ascii) : ascii :=
  let n := nat_of_ascii c in
  if ((65 <=? n) && (n <=? 90))%nat then ascii_of_nat (n + 32) else c.

(** [s.lower()] on ASCII letters. *)
Fixpoint lower (s : string) : string :=
  match s with
  | EmptyString => EmptyString
  | String c s' => String (lower_ascii c) (lower s')
  end.

(** [hay.startswith(needle)] *)
Fixpoint startswith (needle hay : string) : bool :=
  match needle, hay with
  | EmptyString, _ => true
  | String _ _, EmptyString => false
  | String a n', String b h' => Ascii.eqb a b && startswith n' h'
  end.

(** [needle in hay] *)
Fixpoint contains (needle hay : string) : bool :=
  startswith needle hay ||
  match hay with
  | EmptyString => false
  | String _ h' => contains needle h'
  end.

End Py.
Export Py.

(** A parsed query string, in order of appearance; [get] follows
    [QueryDict.get]: the last value bound to the key, else the default. *)
Module QueryDict.

Definition t : Type := list (string * string).

Fixpoint lookup (d : t) (key : string) : option string :=
  match d with
  | [] => None
  | (k, v) :: d' =>
      match lookup d' key with
      | Some v' => Some v'
      | None => if String.eqb k key then Some v else None
      end
  end.

Definition get (d : t) (key : string) (default : value) : value :=
  match lookup d key with
  | Some v => VStr v
  | None => default
  end.

End QueryDict.

(** ** Data model *)

Definition datetime : Type := Z.
Definition User : Type := string.

Record Organization : Type := mkOrganization {
  slug : string;
  full_name : string
}.

Record Transaction : Type := mkTransaction {
  created_at : datetime;
  descr : string;
  orig_organization : Organization;
  dest_organization : Organization;
  orig_account : string;
  dest_account : string;
  orig_amount : Z;
  orig_unit : string;
  dest_amount : Z;
  dest_unit : string
}.

Definition QuerySet : Type := list Transaction.
Definition Ledger : Type := list Transaction.

(** The dictionaries [{'amount': ..., 'unit': ...}] returned by
    [sum_dest_amount] and [sum_orig_amount]. *)
Module Totals.
Record t : Type := mk { amount : Z; unit : string }.
End Totals.

(** Field lookups used in [.filter(...)] and [Q(...)]. *)
Definition icontains (field selector : string) : bool :=
  contains (lower selector) (lower field).

Definition dest_account__icontains (selector : string) (t : Transaction) : bool :=
  icontains (dest_account t) selector.

Definition orig_account__icontains (selector : string) (t : Transaction) : bool :=
  icontains (orig_account t) selector.

Definition orig_amount__gt (bound : Z) (t : Transaction) : bool :=
  bound <? orig_amount t.

(** [Q(a) | Q(b)] *)
Definition Q_or (a b : Transaction -> bool) (t : Transaction) : bool :=
  a t || b t.

(** JSON values of a response body; an [OrderedDict] is a [JDict]. *)
Inductive json : Type :=
| JNull
| JInt (z : Z)
| JStr (s : string)
| JList (l : list json)
| JDict (d : list (string * json)).

Definition json_of_datetime (d : option datetime) : json :=
  match d with Some t => JInt t | None => JNull end.

Definition json_of_link (l : option string) : json :=
  match l with Some s => JStr s | None => JNull end.

Fixpoint dict_get (d : list (string * json)) (key : string) : option json :=
  match d with
  | [] => None
  | (k, v) :: d' => if String.eqb k key then Some v else dict_get d' key
  end.

(** [rest_framework.response.Response(data, status=...)] *)
Record Response : Type := mkResponse {
  status : Z;
  data : option json
}.

Definition HTTP_200_OK : Z := 200.
Definition HTTP_204_NO_CONTENT : Z := 204.

(** Field of the body of a response, when the body is a dictionary. *)
Definition body_field (r : Response) (key : string) : option json :=
  match data r with
  | Some (JDict d) => dict_get d key
  | _ => None
  end.

Record Request : Type := mkRequest {
  GET : QueryDict.t;
  user : User
}.

(** The attributes of a view instance that this file reads or writes.
    [start_at] and [ends_at] are set by [DateRangeMixin] and
    [organization], [provider] by [OrganizationMixin] and [ProviderMixin]
    before [get_queryset] runs; [selector] and [totals] are set by
    [get_queryset] itself. [page_size] is the configured page size. *)
Module View.

Record t : Type := mk {
  request : Request;
  organization : Organization;
  provider : Organization;
  start_at : option datetime;
  ends_at : option datetime;
  page_size : option nat;
  selector : option string;
  totals : option Totals.t
}.

Definition set_selector (self : t) (s : option string) : t :=
  mk (request self) (organization self) (provider self) (start_at self)
     (ends_at self) (page_size self) s (totals self).

Definition set_totals (self : t) (x : Totals.t) : t :=
  mk (request self) (organization self) (provider self) (start_at self)
     (ends_at self) (page_size self) (selector self) (Some x).

End View.

(** [self.page] of a paginator: the rows of the page, [paginator.count],
    the number of the page and the number of pages. *)
Record Page : Type := mkPage {
  object_list : list Transaction;
  count : Z;
  number : nat;
  num_pages : nat
}.

(** ** Collaborators *)

(** Calls into [saas.models], with the arguments the caller passes.
    [get_statement_balance] takes the organization and an optional
    as-of date; an argument the call leaves out is [None]. *)
Inductive Call : Type :=
| call_sum_dest_amount (queryset : QuerySet)
| call_sum_orig_amount (queryset : QuerySet)
| call_get_statement_balance (org : Organization) (until : option datetime)
| call_by_customer (org : Organization)
| call_receivables (prov : Organization)
| call_get_transfers (org : Organization) (reconcile : bool)
| call_create_cancel_transactions (org : Organization) (by_user : User).

(** [saas.models]: the Ledger Store. The module is not in the sources;
    its functions are fields, so every property holds for whatever they
    compute. [statement_balance_rule] takes the organization and the
    as-of date of the specification's [get_statement_balance]. *)
Class Models : Type := {
  sum_dest_amount_rule : QuerySet -> result Totals.t;
  sum_orig_amount_rule : QuerySet -> result Totals.t;
  statement_balance_rule :
    Ledger -> Organization -> option datetime -> result (Z * string);
  by_customer_rule : Ledger -> Organization -> QuerySet;
  receivables_rule : Ledger -> Organization -> QuerySet;
  get_transfers_rule : Ledger -> Organization -> bool -> result QuerySet;
  create_cancel_transactions_rule :
    Ledger -> Organization -> User -> result Ledger
}.

(** [saas.mixins.DateRangeMixin], [extra_views], [rest_framework] and
    [saas.api.serializers]. Each stage receives the query parameters it
    reads: [q] for the search, [o] and [ot] for the order, [page] for the
    page number ([None] when the parameter is absent). The links to the
    adjacent pages are built from the URL of the request. *)
Class Framework : Type := {
  date_range_filter :
    option datetime -> option datetime -> QuerySet -> QuerySet;
  search_filter : list string -> option string -> QuerySet -> QuerySet;
  sort_order :
    list (string * string) -> option string -> option string ->
    QuerySet -> QuerySet;
  page_of : option nat -> option string -> QuerySet -> result (option Page);
  get_next_link : Request -> Page -> option string;
  get_previous_link : Request -> Page -> option string;
  TransactionSerializer : Transaction -> json
}.

(** ** Effects *)

Record World : Type := mkWorld {
  ledger : Ledger;
  trace : list Call
}.

Definition M (A : Type) : Type := World -> result A * World.

Definition ret {A} (a : A) : M A := fun w => (Ok a, w).

Definition bind {A B} (m : M A) (f : A -> M B) : M B :=
  fun w =>
    match m w with
    | (Ok a, w') => f a w'
    | (Raise e, w') => (Raise e, w')
    end.

Definition raise {A} (e : exn) : M A := fun w => (Raise e, w).

(** [try: body except ...: handler]; a handler re-raises what it does
    not catch. *)
Definition try_except {A} (body : M A) (handler : exn -> M A) : M A :=
  fun w =>
    match body w with
    | (Ok a, w') => (Ok a, w')
    | (Raise e, w') => handler e w'
    end.

Definition lift {A} (r : result A) : M A := fun w => (r, w).

Definition emit (c : Call) : M unit :=
  fun w => (Ok tt, mkWorld (ledger w) (trace w ++ [c])).

Definition read_ledger : M Ledger := fun w => (Ok (ledger w), w).

Definition write_ledger (l : Ledger) : M unit :=
  fun w => (Ok tt, mkWorld l (trace w)).

Declare Scope py_scope.
Delimit Scope py_scope with py.
Notation "x <- c1 ;; c2" := (bind c1 (fun x => c2))
  (at level 61, c1 at next level, right associativity) : py_scope.
Notation "' pat <- c1 ;; c2" :=
  (bind c1 (fun x => match x with pat => c2 end))
  (at level 61, pat pattern, c1 at next level, right associativity) : py_scope.
Notation "c1 ;;; c2" := (bind c1 (fun _ => c2))
  (at level 61, right associativity) : py_scope.
Local Open Scope py_scope.

(** Number of the calls in a trace that satisfy [p]. *)
Definition count_calls (p : Call -> bool) (tr : list Call) : nat :=
  List.length (List.filter p tr).

Definition is_statement_balance_call (c : Call) : bool :=
  match c with call_get_statement_balance _ _ => true | _ => false end.

Definition is_sum_call (c : Call) : bool :=
  match c with
  | call_sum_dest_amount _ | call_sum_orig_amount _ => true
  | _ => false
  end.

(** ** [saas.models], as called from this file

    Every call is recorded in the trace with the arguments passed. *)

Definition sum_dest_amount `{Models} (queryset : QuerySet) : M Totals.t :=
  emit (call_sum_dest_amount queryset) ;;;
  lift (sum_dest_amount_rule queryset).

Definition sum_orig_amount `{Models} (queryset : QuerySet) : M Totals.t :=
  emit (call_sum_orig_amount queryset) ;;;
  lift (sum_orig_amount_rule queryset).

(** [Transaction.objects.all()] *)
Definition Transaction_objects_all : M QuerySet := read_ledger.

(** [Transaction.objects.get_statement_balance(organization, until)] *)
Definition get_statement_balance `{Models}
    (org : Organization) (until : option datetime) : M (Z * string) :=
  emit (call_get_statement_balance org until) ;;;
  l <- read_ledger ;;
  lift (statement_balance_rule l org until).

(** [Transaction.objects.by_customer(organization)] *)
Definition by_customer `{Models} (org : Organization) : M QuerySet :=
  emit (call_by_customer org) ;;;
  l <- read_ledger ;;
  ret (by_customer_rule l org).

(** [provider.receivables()] *)
Definition receivables `{Models} (prov : Organization) : M QuerySet :=
  emit (call_receivables prov) ;;;
  l <- read_ledger ;;
  ret (receivables_rule l prov).

(** [organization.get_transfers(reconcile=reconcile)] *)
Definition get_transfers `{Models}
    (org : Organization) (reconcile : bool) : M QuerySet :=
  emit (call_get_transfers org reconcile) ;;;
  l <- read_ledger ;;
  lift (get_transfers_rule l org reconcile).

(** [organization.create_cancel_transactions(user=user)] *)
Definition create_cancel_transactions `{Models}
    (org : Organization) (by_user : User) : M unit :=
  emit (call_create_cancel_transactions org by_user) ;;;
  l <- read_ledger ;;
  l' <- lift (create_cancel_transactions_rule l org by_user) ;;
  write_ledger l'.

(** ** Pagination classes *)

(** [rest_framework.pagination.PageNumberPagination] *)
Module PageNumberPagination.

Definition paginate_queryset `{Framework}
    (queryset : QuerySet) (request : Request) (view : View.t)
  : result (option Page) :=
  page_of (View.page_size view) (QueryDict.lookup (GET request) "page")
          queryset.

(** The attributes the paginator keeps: [self.page], [self.request]. *)
Record t : Type := mk {
  page : option Page;
  request : Request
}.

Definition get_paginated_response `{Framework} (self : t) (data : json)
  : result Response :=
  match page self with
  | None => Raise (AttributeError "page")
  | Some p =>
      Ok (mkResponse HTTP_200_OK (Some (JDict [
        ("count", JInt (count p));
        ("next", json_of_link (get_next_link (request self) p));
        ("previous", json_of_link (get_previous_link (request self) p));
        ("results", data)])))
  end.

(** [paginate_queryset] in the shape [ListModelMixin.list] calls it. *)
Definition paginate `{Framework}
    (queryset : QuerySet) (request : Request) (view : View.t)
  : M (t * option (list Transaction)) :=
  page <- lift (paginate_queryset queryset request view) ;;
  ret (mk page request, option_map object_list page).

End PageNumberPagination.

Module BalancePagination.

Record t : Type := mk {
  ends_at : option datetime;
  balance_amount : Z;
  balance_unit : string;
  page : option Page;
  request : Request
}.

Definition paginate_queryset `{Models} `{Framework}
    (queryset : QuerySet) (request : Request) (view : View.t)
  : M (t * option (list Transaction)) :=
  let self_ends_at := View.ends_at view in
  ' (dest_totals, orig_totals) <-
    match View.selector view with
    | Some selector =>
        dest_totals <- sum_dest_amount
          (filter (dest_account__icontains selector) queryset) ;;
        orig_totals <- sum_orig_amount
          (filter (orig_account__icontains selector) queryset) ;;
        ret (dest_totals, orig_totals)
    | None =>
        dest_totals <- sum_dest_amount queryset ;;
        orig_totals <- sum_orig_amount queryset ;;
        ret (dest_totals, orig_totals)
    end ;;
  let self_balance_amount :=
    Totals.amount dest_totals - Totals.amount orig_totals in
  let self_balance_unit := Totals.unit dest_totals in
  page <- lift (PageNumberPagination.paginate_queryset
                  queryset request view) ;;
  ret (mk self_ends_at self_balance_amount self_balance_unit page request,
       option_map object_list page).

Definition get_paginated_response `{Framework} (self : t) (data : json)
  : result Response :=
  match page self with
  | None => Raise (AttributeError "page")
  | Some p =>
      Ok (mkResponse HTTP_200_OK (Some (JDict [
        ("ends_at", json_of_datetime (ends_at self));
        ("balance", JInt (balance_amount self));
        ("unit", JStr (balance_unit self));
        ("count", JInt (count p));
        ("next", json_of_link (get_next_link (request self) p));
        ("previous", json_of_link (get_previous_link (request self) p));
        ("results", data)])))
  end.

End BalancePagination.

Module StatementBalancePagination.

Record t : Type := mk {
  ends_at : option datetime;
  balance_amount : Z;
  balance_unit : string;
  page : option Page;
  request : Request
}.

Definition paginate_queryset `{Models} `{Framework}
    (queryset : QuerySet) (request : Request) (view : View.t)
  : M (t * option (list Transaction)) :=
  let self_ends_at := View.ends_at view in
  ' (self_balance_amount, self_balance_unit) <-
    get_statement_balance (View.organization view) None ;;
  page <- lift (PageNumberPagination.paginate_queryset
                  queryset request view) ;;
  ret (mk self_ends_at self_balance_amount self_balance_unit page request,
       option_map object_list page).

Definition get_paginated_response `{Framework} (self : t) (data : json)
  : result Response :=
  match page self with
  | None => Raise (AttributeError "page")
  | Some p =>
      Ok (mkResponse HTTP_200_OK (Some (JDict [
        ("ends_at", json_of_datetime (ends_at self));
        ("balance", JInt (balance_amount self));
        ("unit", JStr (balance_unit self));
        ("count", JInt (count p));
        ("next", json_of_link (get_next_link (request self) p));
        ("previous", json_of_link (get_previous_link (request self) p));
        ("results", data)])))
  end.

End StatementBalancePagination.

Module TotalPagination.

Record t : Type := mk {
  ends_at : option datetime;
  totals : Totals.t;
  page : option Page;
  request : Request
}.

Definition paginate_queryset `{Framework}
    (queryset : QuerySet) (request : Request) (view : View.t)
  : M (t * option (list Transaction)) :=
  let self_ends_at := View.ends_at view in
  self_totals <-
    match View.totals view with
    | Some x => ret x
    | None => raise (AttributeError "totals")
    end ;;
  page <- lift (PageNumberPagination.paginate_queryset
                  queryset request view) ;;
  ret (mk self_ends_at self_totals page request,
       option_map object_list page).

Definition get_paginated_response `{Framework} (self : t) (data : json)
  : result Response :=
  match page self with
  | None => Raise (AttributeError "page")
  | Some p =>
      Ok (mkResponse HTTP_200_OK (Some (JDict [
        ("ends_at", json_of_datetime (ends_at self));
        ("total", JInt (Totals.amount (totals self)));
        ("unit", JStr (Totals.unit (totals self)));
        ("count", JInt (count p));
        ("next", json_of_link (get_next_link (request self) p));
        ("previous", json_of_link (get_previous_link (request self) p));
        ("results", data)])))
  end.

End TotalPagination.

(** ** Queryset mixins

    [get_queryset] returns the view with the attributes it has set and
    the queryset. A mixin that calls [super(...).get_queryset()] takes
    the next method of the resolution order as [super_get_queryset]. *)

Definition get_queryset_t : Type := View.t -> M (View.t * QuerySet).

Module TotalAnnotateMixin.

Definition get_queryset `{Models}
    (super_get_queryset : get_queryset_t) : get_queryset_t :=
  fun self =>
    ' (self, queryset) <- super_get_queryset self ;;
    self_totals <- sum_orig_amount queryset ;;
    ret (View.set_totals self self_totals, queryset).

End TotalAnnotateMixin.

(** [saas.mixins.DateRangeMixin] *)
Module DateRangeMixin.

Definition get_queryset `{Framework}
    (super_get_queryset : get_queryset_t) : get_queryset_t :=
  fun self =>
    ' (self, queryset) <- super_get_queryset self ;;
    ret (self, date_range_filter (View.start_at self) (View.ends_at self)
                                 queryset).

End DateRangeMixin.

(** [extra_views.contrib.mixins.SearchableListMixin] *)
Module SearchableListMixin.

Definition get_queryset `{Framework} (search_fields : list string)
    (super_get_queryset : get_queryset_t) : get_queryset_t :=
  fun self =>
    ' (self, queryset) <- super_get_queryset self ;;
    ret (self, search_filter search_fields
                 (QueryDict.lookup (GET (View.request self)) "q")
                 queryset).

End SearchableListMixin.

(** [extra_views.contrib.mixins.SortableListMixin] *)
Module SortableListMixin.

Definition get_queryset `{Framework}
    (sort_fields_aliases : list (string * string))
    (super_get_queryset : get_queryset_t) : get_queryset_t :=
  fun self =>
    ' (self, queryset) <- super_get_queryset self ;;
    ret (self, sort_order sort_fields_aliases
                 (QueryDict.lookup (GET (View.request self)) "o")
                 (QueryDict.lookup (GET (View.request self)) "ot")
                 queryset).

End SortableListMixin.

(** [class TransactionFilterMixin(DateRangeMixin, SearchableListMixin)] *)
Module TransactionFilterMixin.

Definition search_fields : list string :=
  ["descr"; "orig_organization__full_name"; "dest_organization__full_name"].

Definition get_queryset `{Framework}
    (super_get_queryset : get_queryset_t) : get_queryset_t :=
  DateRangeMixin.get_queryset
    (SearchableListMixin.get_queryset search_fields super_get_queryset).

End TransactionFilterMixin.

(** [class SmartTransactionListMixin(SortableListMixin, TransactionFilterMixin)] *)
Module SmartTransactionListMixin.

Definition sort_fields_aliases : list (string * string) :=
  [("descr", "description");
   ("dest_amount", "amount");
   ("dest_organization__slug", "dest_organization");
   ("dest_account", "dest_account");
   ("orig_organization__slug", "orig_organization");
   ("orig_account", "orig_account");
   ("created_at", "created_at")].

Definition get_queryset `{Framework}
    (super_get_queryset : get_queryset_t) : get_queryset_t :=
  SortableListMixin.get_queryset sort_fields_aliases
    (TransactionFilterMixin.get_queryset super_get_queryset).

End SmartTransactionListMixin.

Module TransactionQuerysetMixin.

Definition get_queryset : get_queryset_t :=
  fun self =>
    let self_selector :=
      QueryDict.lookup (GET (View.request self)) "selector" in
    let self := View.set_selector self self_selector in
    match self_selector with
    | Some selector =>
        objects <- Transaction_objects_all ;;
        ret (self, filter (Q_or (dest_account__icontains selector)
                                (orig_account__icontains selector))
                          objects)
    | None =>
        objects <- Transaction_objects_all ;;
        ret (self, objects)
    end.

End TransactionQuerysetMixin.

Module BillingsQuerysetMixin.

Definition get_queryset `{Models} : get_queryset_t :=
  fun self =>
    queryset <- by_customer (View.organization self) ;;
    ret (self, queryset).

End BillingsQuerysetMixin.

Module ReceivablesQuerysetMixin.

Definition get_queryset `{Models} : get_queryset_t :=
  fun self =>
    queryset <- receivables (View.provider self) ;;
    ret (self, filter (orig_amount__gt 0) queryset).

End ReceivablesQuerysetMixin.

Module TransferQuerysetMixin.

(** [not bool(self.request.GET.get('force', False))] *)
Definition reconcile (request : Request) : bool :=
  negb (py_bool (QueryDict.get (GET request) "force" (VBool false))).

Definition get_queryset `{Models} : get_queryset_t :=
  fun self =>
    queryset <- get_transfers (View.organization self)
                              (reconcile (View.request self)) ;;
    ret (self, queryset).

End TransferQuerysetMixin.

(** ** Views *)

(** [rest_framework.mixins.ListModelMixin.list]; no filter backend is
    configured, so [filter_queryset] returns its argument. *)
Definition ListModelMixin_list `{Framework} {P : Type}
    (get_queryset : get_queryset_t)
    (paginate_queryset :
       QuerySet -> Request -> View.t -> M (P * option (list Transaction)))
    (get_paginated_response : P -> json -> result Response)
    (self : View.t) : M Response :=
  ' (self, queryset) <- get_queryset self ;;
  ' (paginator, page) <- paginate_queryset queryset (View.request self) self ;;
  match page with
  | Some rows =>
      lift (get_paginated_response paginator
              (JList (map TransactionSerializer rows)))
  | None =>
      ret (mkResponse HTTP_200_OK
             (Some (JList (map TransactionSerializer queryset))))
  end.

(** [class TransactionListAPIView(SmartTransactionListMixin,
           TransactionQuerysetMixin, ListAPIView)] *)
Module TransactionListAPIView.

Definition get_queryset `{Framework} : get_queryset_t :=
  SmartTransactionListMixin.get_queryset
    TransactionQuerysetMixin.get_queryset.

Definition list `{Models} `{Framework} (self : View.t) : M Response :=
  ListModelMixin_list get_queryset
    BalancePagination.paginate_queryset
    BalancePagination.get_paginated_response self.

End TransactionListAPIView.

(** [class BillingsAPIView(SmartTransactionListMixin,
           BillingsQuerysetMixin, ListAPIView)] *)
Module BillingsAPIView.

Definition get_queryset `{Models} `{Framework} : get_queryset_t :=
  SmartTransactionListMixin.get_queryset
    BillingsQuerysetMixin.get_queryset.

Definition list `{Models} `{Framework} (self : View.t) : M Response :=
  ListModelMixin_list get_queryset
    StatementBalancePagination.paginate_queryset
    StatementBalancePagination.get_paginated_response self.

End BillingsAPIView.

(** [class ReceivablesListAPIView(SortableListMixin, TotalAnnotateMixin,
           TransactionFilterMixin, ReceivablesQuerysetMixin, ListAPIView)] *)
Module ReceivablesListAPIView.

Definition sort_fields_aliases : list (string * string) :=
  [("descr", "description");
   ("dest_amount", "amount");
   ("dest_organization__slug", "dest_organization");
   ("dest_account", "dest_account");
   ("orig_organization__slug", "orig_organization");
   ("orig_account", "orig_account");
   ("created_at", "created_at")].

(** The queryset the total is taken over: the receivables of the
    provider, scoped by date range and search. *)
Definition scoped_queryset `{Models} `{Framework} : get_queryset_t :=
  TransactionFilterMixin.get_queryset ReceivablesQuerysetMixin.get_queryset.

Definition get_queryset `{Models} `{Framework} : get_queryset_t :=
  SortableListMixin.get_queryset sort_fields_aliases
    (TotalAnnotateMixin.get_queryset scoped_queryset).

Definition list `{Models} `{Framework} (self : View.t) : M Response :=
  ListModelMixin_list get_queryset
    TotalPagination.paginate_queryset
    TotalPagination.get_paginated_response self.

End ReceivablesListAPIView.

(** [class TransferListAPIView(SmartTransactionListMixin,
           TransferQuerysetMixin, ListAPIView)] *)
Module TransferListAPIView.

Definition get_queryset `{Models} `{Framework} : get_queryset_t :=
  SmartTransactionListMixin.get_queryset
    TransferQuerysetMixin.get_queryset.

(** [super(TransferListAPIView, self).list(request, ...)] *)
Definition super_list `{Models} `{Framework} (self : View.t) : M Response :=
  ListModelMixin_list get_queryset
    PageNumberPagination.paginate
    PageNumberPagination.get_paginated_response self.

Definition detail (err : exn) : string :=
  "The latest transfers might"
  ++ " not be shown because there was an error with the backend"
  ++ " processor (ie. " ++ py_str err ++ ").".

Definition list `{Models} `{Framework} (self : View.t) : M Response :=
  try_except (super_list self)
    (fun err =>
       match err with
       | ProcessorError _ => raise (ValidationError (detail err))
       | _ => raise err
       end).

End TransferListAPIView.

Module StatementBalanceAPIView.

Definition get `{Models} (self : View.t) : M Response :=
  ' (balance_amount, balance_unit) <-
    get_statement_balance (View.organization self) None ;;
  ret (mkResponse HTTP_200_OK (Some (JDict [
         ("balance_amount", JInt balance_amount);
         ("balance_unit", JStr balance_unit)]))).

End StatementBalanceAPIView.

Module CancelStatementBalanceAPIView.

Definition destroy `{Models} (self : View.t) (request : Request)
  : M Response :=
  create_cancel_transactions (View.organization self) (user request) ;;;
  ret (mkResponse HTTP_204_NO_CONTENT None).

End CancelStatementBalanceAPIView.

(** ** From an exception to an HTTP response

    [rest_framework.views.exception_handler]: an [APIException] becomes
    a response with its status code; any other exception is not handled
    and ends as a server error. *)
Definition HTTP_400_BAD_REQUEST : Z := 400.
Definition HTTP_404_NOT_FOUND : Z := 404.
Definition HTTP_500_INTERNAL_SERVER_ERROR : Z := 500.

Definition exception_response (e : exn) : Response :=
  match e with
  | ValidationError d =>
      mkResponse HTTP_400_BAD_REQUEST (Some (JDict [("detail", JStr d)]))
  | NotFound m =>
      mkResponse HTTP_404_NOT_FOUND (Some (JDict [("detail", JStr m)]))
  | _ => mkResponse HTTP_500_INTERNAL_SERVER_ERROR None
  end.

Definition dispatch (handler : M Response) (w : World) : Response * World :=
  match handler w with
  | (Ok r, w') => (r, w')
  | (Raise e, w') => (exception_response e, w')
  end.

Definition is_client_error (code : Z) : bool :=
  (400 <=? code) && (code <? 500).

(** ** The collaborators as the specification describes them *)

Module SpecModel.

Definition DEFAULT_UNIT : string := "usd".

Definition sum_amounts (amount_of : Transaction -> Z)
    (unit_of : Transaction -> string) (queryset : QuerySet)
  : result Totals.t :=
  match queryset with
  | [] => Ok (Totals.mk 0 DEFAULT_UNIT)
  | t :: rest =>
      if forallb (fun x => String.eqb (unit_of x) (unit_of t)) rest
      then Ok (Totals.mk (fold_right Z.add 0 (map amount_of queryset))
                         (unit_of t))
      else Raise (ValidationError "sum across more than one unit")
  end.

(** Modelled from the spec: [saas.models.sum_dest_amount] is not in
    the sources. The sum of [dest_amount] over the rows with their
    common unit; zero in a default unit on the empty set; an error
    when units are mixed. *)
Definition sum_dest_amount (queryset : QuerySet) : result Totals.t :=
  sum_amounts dest_amount dest_unit queryset.

(** Modelled from the spec: [saas.models.sum_orig_amount] is not in
    the sources. As [sum_dest_amount], on the origin side. *)
Definition sum_orig_amount (queryset : QuerySet) : result Totals.t :=
  sum_amounts orig_amount orig_unit queryset.

(** Modelled from the spec: [saas.mixins.DateRangeMixin] is not in the
    sources. Inclusive start, exclusive end on [created_at]; an absent
    bound is unbounded. *)
Definition date_range_filter (start_at ends_at : option datetime)
    (queryset : QuerySet) : QuerySet :=
  filter (fun t =>
            match start_at with
            | Some s => s <=? created_at t
            | None => true
            end &&
            match ends_at with
            | Some e => created_at t <? e
            | None => true
            end) queryset.

Definition field_value (field : string) (t : Transaction) : string :=
  if String.eqb field "descr" then descr t
  else if String.eqb field "orig_organization__full_name"
  then full_name (orig_organization t)
  else if String.eqb field "dest_organization__full_name"
  then full_name (dest_organization t)
  else "".

(** Modelled from the spec: the free-text filter of
    [SearchableListMixin]. Case-insensitive substring match of [q],
    OR-combined across the search fields; no filter without [q]. *)
Definition search_filter (search_fields : list string) (q : option string)
    (queryset : QuerySet) : QuerySet :=
  match q with
  | None => queryset
  | Some term =>
      filter (fun t =>
                existsb (fun f => icontains (field_value f t) term)
                        search_fields) queryset
  end.

Section Transfers.

(** Which rows are transfers of an organization acting as provider,
    and which of them the processor has settled. *)
Variable is_transfer : Organization -> Transaction -> bool.
Variable is_reconciled : Transaction -> bool.

(** Modelled from the spec: [Organization.get_transfers] is not in
    the sources. When reconciling, only the settled transfers of the
    organization; otherwise all its transfers, pending ones
    included. *)
Definition get_transfers (l : Ledger) (org : Organization)
    (reconcile : bool) : QuerySet :=
  filter (fun t =>
            is_transfer org t &&
            (if reconcile then is_reconciled t else true)) l.

End Transfers.

End SpecModel.

(** ** A fixture: a small ledger and concrete collaborators *)

Module Fixture.

Definition xia : Organization := mkOrganization "xia" "Xia Lee".
Definition cowork : Organization := mkOrganization "cowork" "Cowork Inc".

(** The transactions A->B and B->A of the selector test. *)
Definition t_ab : Transaction :=
  mkTransaction 5 "Charge for 4 periods" xia cowork "A" "B"
                100 "usd" 100 "usd".
Definition t_ba : Transaction :=
  mkTransaction 20 "Refund" cowork xia "B" "A" 30 "usd" 30 "usd".
Definition t_pending : Transaction :=
  mkTransaction 30 "pending payout" cowork xia "Funds" "Funds"
                70 "usd" 70 "usd".

Definition the_ledger : Ledger := [t_ab; t_ba; t_pending].

Definition same_org (a b : Organization) : bool :=
  String.eqb (slug a) (slug b).

(** A statement balance that depends on the as-of date: what the
    organization was charged before [until] (all of it without). *)
Definition statement_balance (l : Ledger) (org : Organization)
    (until : option datetime) : result (Z * string) :=
  Ok (fold_right Z.add 0
        (map orig_amount
           (filter (fun t =>
                      same_org (orig_organization t) org &&
                      match until with
                      | Some u => created_at t <? u
                      | None => true
                      end) l)),
      SpecModel.DEFAULT_UNIT).

Definition is_transfer (org : Organization) (t : Transaction) : bool :=
  same_org (orig_organization t) org || same_org (dest_organization t) org.

Definition is_reconciled (t : Transaction) : bool :=
  negb (startswith "pending" (descr t)).

(** Cancels the balance with one offsetting row attributed to the user. *)
Definition create_cancel (l : Ledger) (org : Organization) (by_user : User)
  : result Ledger :=
  match statement_balance l org None with
  | Ok (amount, unit) =>
      Ok (l ++ [mkTransaction 100 ("cancelled by " ++ by_user) org org
                              "Writeoff" "Liability" (- amount) unit
                              (- amount) unit])%list
  | Raise e => Raise e
  end.

#[export] Instance models : Models := {|
  sum_dest_amount_rule := SpecModel.sum_dest_amount;
  sum_orig_amount_rule := SpecModel.sum_orig_amount;
  statement_balance_rule := statement_balance;
  by_customer_rule :=
    fun l org => filter (fun t => same_org (orig_organization t) org) l;
  receivables_rule :=
    fun l org => filter (fun t => same_org (dest_organization t) org) l;
  get_transfers_rule :=
    fun l org reconcile =>
      Ok (SpecModel.get_transfers is_transfer is_reconciled l org reconcile);
  create_cancel_transactions_rule := create_cancel
|}.

(** A store whose processor backend is down. *)
Definition failing_models : Models := {|
  sum_dest_amount_rule := SpecModel.sum_dest_amount;
  sum_orig_amount_rule := SpecModel.sum_orig_amount;
  statement_balance_rule := statement_balance;
  by_customer_rule := fun l _ => l;
  receivables_rule := fun l _ => l;
  get_transfers_rule :=
    fun _ _ reconcile =>
      if reconcile then Raise (ProcessorError "connection timed out")
      else Ok [];
  create_cancel_transactions_rule := create_cancel
|}.

Fixpoint digits (s : string) (acc : nat) : option nat :=
  match s with
  | EmptyString => Some acc
  | String c s' =>
      let n := nat_of_ascii c in
      if ((48 <=? n) && (n <=? 57))%nat
      then digits s' (10 * acc + (n - 48))%nat
      else None
  end.

Definition page_number (p : option string) : option nat :=
  match p with
  | None => Some 1%nat
  | Some EmptyString => None
  | Some s => digits s 0
  end.

(** Pages of [per_page] rows, numbered from 1; a page number outside
    the range is [NotFound]; no page size, no pagination. *)
Definition paginator_page (size : option nat) (p : option string)
    (queryset : QuerySet) : result (option Page) :=
  match size with
  | None | Some O => Ok None
  | Some per_page =>
      match page_number p with
      | None => Raise (NotFound "Invalid page.")
      | Some k =>
          let n := List.length queryset in
          let num_pages := Nat.max 1 ((n + per_page - 1) / per_page) in
          if ((k <? 1) || (num_pages <? k))%nat
          then Raise (NotFound "Invalid page.")
          else Ok (Some (mkPage
                 (firstn per_page (skipn ((k - 1) * per_page) queryset))
                 (Z.of_nat n) k num_pages))
      end
  end.

(** The query string of a request without its [page] parameter. *)
Fixpoint query_string (d : QueryDict.t) : string :=
  match d with
  | [] => ""
  | (k, v) :: d' =>
      if String.eqb k "page" then query_string d'
      else k ++ "=" ++ v ++ "&" ++ query_string d'
  end.

(** The URL of the request with its [page] parameter replaced; page
    numbers stay below ten in the fixture. *)
Definition page_link (request : Request) (n : nat) : string :=
  "?" ++ query_string (GET request) ++ "page="
      ++ String (ascii_of_nat (48 + n)) "".

Definition next_link (request : Request) (p : Page) : option string :=
  if (number p <? num_pages p)%nat
  then Some (page_link request (number p + 1))
  else None.

Definition previous_link (request : Request) (p : Page) : option string :=
  if (1 <? number p)%nat
  then Some (page_link request (number p - 1))
  else None.

Definition serializer (t : Transaction) : json :=
  JDict [("created_at", JInt (created_at t));
         ("description", JStr (descr t));
         ("orig_account", JStr (orig_account t));
         ("orig_amount", JInt (orig_amount t));
         ("dest_account", JStr (dest_account t));
         ("dest_amount", JInt (dest_amount t))].

#[export] Instance framework : Framework := {|
  date_range_filter := SpecModel.date_range_filter;
  search_filter := SpecModel.search_filter;
  sort_order := fun _ _ _ queryset => queryset;
  page_of := paginator_page;
  get_next_link := next_link;
  get_previous_link := previous_link;
  TransactionSerializer := serializer
|}.

Definition world : World := mkWorld the_ledger [].

Definition view (params : QueryDict.t) (org : Organization)
    (ends : option datetime) (size : nat) : View.t :=
  View.mk (mkRequest params "alice") org org None ends (Some size)
          None None.

(** Two pages of the same filtered listing: first page of two rows,
    second page of one row. *)
Definition first_page : View.t :=
  view [("selector", "a"); ("page", "1")] xia (Some 50) 2.
Definition second_page : View.t :=
  view [("selector", "a"); ("page", "2")] xia (Some 50) 1.

(** A billings request whose date filter ends before the only charge. *)
Definition billings_view : View.t := view [] xia (Some 3) 2.

(** The global list with an empty selector, and without selector. *)
Definition empty_selector : View.t :=
  view [("selector", "")] xia (Some 50) 2.
Definition no_selector : View.t := view [] xia (Some 50) 2.

End Fixture.

(** ** Vocabulary of the properties *)

(** Two views of the same endpoint that carry the same filter: same
    organization, same date range, and the same query parameters apart
    from [key]. *)
Definition same_query_except (key : string) (v1 v2 : View.t) : Prop :=
  View.organization v1 = View.organization v2
  /\ View.provider v1 = View.provider v2
  /\ View.start_at v1 = View.start_at v2
  /\ View.ends_at v1 = View.ends_at v2
  /\ forall k, k <> key ->
       QueryDict.lookup (GET (View.request v1)) k
       = QueryDict.lookup (GET (View.request v2)) k.

(** The rows each side of the balance is summed over. *)
Definition dest_side (sel : option string) (queryset : QuerySet) : QuerySet :=
  match sel with
  | Some selector => filter (dest_account__icontains selector) queryset
  | None => queryset
  end.

Definition orig_side (sel : option string) (queryset : QuerySet) : QuerySet :=
  match sel with
  | Some selector => filter (orig_account__icontains selector) queryset
  | None => queryset
  end.

(** The scoping stages of [TransactionFilterMixin] and of the order, as
    they apply to the queryset of a view. *)
Definition filter_stage `{Framework} (v : View.t) (queryset : QuerySet)
  : QuerySet :=
  date_range_filter (View.start_at v) (View.ends_at v)
    (search_filter TransactionFilterMixin.search_fields
       (QueryDict.lookup (GET (View.request v)) "q") queryset).

Definition sort_stage `{Framework} (v : View.t) (queryset : QuerySet)
  : QuerySet :=
  sort_order SmartTransactionListMixin.sort_fields_aliases
    (QueryDict.lookup (GET (View.request v)) "o")
    (QueryDict.lookup (GET (View.request v)) "ot") queryset.

(** The full, unpaginated queryset of the global list. *)
Definition global_queryset `{Framework} (v : View.t) (l : Ledger)
  : QuerySet :=
  sort_stage v (filter_stage v
    (match QueryDict.lookup (GET (View.request v)) "selector" with
     | Some selector =>
         filter (Q_or (dest_account__icontains selector)
                      (orig_account__icontains selector)) l
     | None => l
     end)).

(** The queryset the receivables total is taken over. *)
Definition receivables_queryset `{Models} `{Framework} (v : View.t)
    (l : Ledger) : QuerySet :=
  filter_stage v
    (filter (orig_amount__gt 0) (receivables_rule l (View.provider v))).

(** The scoping stages only select rows of their input. *)
Definition scoping_selects `{Framework} : Prop :=
  (forall a b queryset t,
      In t (date_range_filter a b queryset) -> In t queryset)
  /\ (forall fields q queryset t,
        In t (search_filter fields q queryset) -> In t queryset).

(** The calls to the statement-balance rule made between two worlds. *)
Definition statement_balance_calls (before after : World) : list Call :=
  filter is_statement_balance_call
         (skipn (List.length (trace before)) (trace after)).

(** The consumption contract as the specification words it: a billings
    request makes one call to the statement-balance rule, and the call
    carries the [ends_at] of the date filter. *)
Definition statement_call_uses_ends_at `{Models} `{Framework}
    (v : View.t) (w : World) : Prop :=
  statement_balance_calls w (snd (BillingsAPIView.list v w))
  = [call_get_statement_balance (View.organization v) (View.ends_at v)].

(** The [force] flag of a transfer request, as the view reads it:
    [bool(request.GET.get('force', False))]. *)
Definition force_flag (request : Request) : bool :=
  py_bool (QueryDict.get (GET request) "force" (VBool false)).

(** The queryset of a run of [get_queryset] that succeeded. *)
Definition queryset_of (run : result (View.t * QuerySet) * World)
  : QuerySet :=
  match fst run with
  | Ok (_, queryset) => queryset
  | Raise e => []
  end.

(** Two outcomes of a list request that agree on everything but the
    links to the adjacent pages: the same exception, or responses with
    the same status and the same body fields other than [next] and
    [previous] (the same rows when the body is a plain list). *)
Definition same_outcome_but_links (o1 o2 : result Response) : Prop :=
  match o1, o2 with
  | Ok r1, Ok r2 =>
      status r1 = status r2
      /\ (forall key, key <> "next" -> key <> "previous" ->
                      body_field r1 key = body_field r2 key)
      /\ (forall l, data r1 = Some (JList l) <-> data r2 = Some (JList l))
  | Raise e1, Raise e2 => e1 = e2
  | _, _ => False
  end.

(** The response of a run that succeeded. *)
Definition response_of (run : result Response * World) : Response :=
  match fst run with
  | Ok r => r
  | Raise e => mkResponse HTTP_200_OK None
  end.

(** ** Further vocabulary *)

(** Two views that carry the same filter apart from the query
    parameters listed in [keys]. *)
Definition same_query_but (keys : list string) (v1 v2 : View.t) : Prop :=
  View.organization v1 = View.organization v2
  /\ View.provider v1 = View.provider v2
  /\ View.start_at v1 = View.start_at v2
  /\ View.ends_at v1 = View.ends_at v2
  /\ forall k, ~ In k keys ->
       QueryDict.lookup (GET (View.request v1)) k
       = QueryDict.lookup (GET (View.request v2)) k.


(** The full, unpaginated queryset of the billings list. *)
Definition billings_queryset `{Models} `{Framework} (v : View.t)
    (l : Ledger) : QuerySet :=
  sort_stage v (filter_stage v (by_customer_rule l (View.organization v))).

(** The full, unpaginated queryset of the transfers list. *)
Definition transfers_queryset `{Framework} (v : View.t)
    (queryset : QuerySet) : QuerySet :=
  sort_stage v (filter_stage v queryset).

(** More ledgers and collaborators for the examples. *)
Module Scenarios.

(** A row that converts euros into dollars. *)
Definition t_conversion : Transaction :=
  mkTransaction 7 "Conversion" Fixture.xia Fixture.cowork "Funds" "Funds"
                100 "eur" 110 "usd".

Definition conversion_world : World := mkWorld [t_conversion] [].

(** A second charge, in euros, next to the charge in dollars. *)
Definition t_eur : Transaction :=
  mkTransaction 8 "Charge in euros" Fixture.xia Fixture.cowork "A" "B"
                40 "eur" 40 "eur".

Definition mixed_world : World := mkWorld [Fixture.t_ab; t_eur] [].

Fixpoint insert_by (le : Transaction -> Transaction -> bool)
    (t : Transaction) (l : list Transaction) : list Transaction :=
  match l with
  | [] => [t]
  | x :: l' => if le t x then t :: l else x :: insert_by le t l'
  end.

(** [order_by('dest_amount')] and [order_by('-dest_amount')] when the
    request asks for the order [amount]; the queryset as it is
    otherwise. *)
Definition order_by_amount (o ot : option string) (queryset : QuerySet)
  : QuerySet :=
  match o with
  | Some field =>
      if String.eqb field "amount" then
        match ot with
        | Some direction =>
            if String.eqb direction "desc"
            then fold_right
                   (insert_by (fun a b => dest_amount b <=? dest_amount a))
                   [] queryset
            else fold_right
                   (insert_by (fun a b => dest_amount a <=? dest_amount b))
                   [] queryset
        | None =>
            fold_right
              (insert_by (fun a b => dest_amount a <=? dest_amount b))
              [] queryset
        end
      else queryset
  | None => queryset
  end.

(** The fixture framework, with an order stage that sorts. *)
Definition sorting_framework : Framework := {|
  date_range_filter := SpecModel.date_range_filter;
  search_filter := SpecModel.search_filter;
  sort_order := fun _ o ot queryset => order_by_amount o ot queryset;
  page_of := Fixture.paginator_page;
  get_next_link := Fixture.next_link;
  get_previous_link := Fixture.previous_link;
  TransactionSerializer := Fixture.serializer
|}.

End Scenarios.

(** * Properties *)

(** ** Strings and lookups *)

Lemma startswith_empty (hay : string) : startswith "" hay = true.
Proof. destruct hay; reflexivity. Qed.

Lemma contains_empty (hay : string) : contains "" hay = true.
Proof. destruct hay; reflexivity. Qed.

Lemma startswith_append (needle rest : string) :
  startswith needle (needle ++ rest) = true.
Proof.
  induction needle as [|c needle IH]; simpl.
  - reflexivity.
  - rewrite Ascii.eqb_refl. exact IH.
Qed.

Lemma contains_append_left (needle before hay : string) :
  contains needle hay = true -> contains needle (before ++ hay) = true.
Proof.
  intros Hhay. induction before as [|c before IH]; simpl.
  - exact Hhay.
  - rewrite IH. apply orb_true_r.
Qed.

Lemma contains_startswith (needle hay : string) :
  startswith needle hay = true -> contains needle hay = true.
Proof. intros H. destruct hay; simpl; rewrite H; reflexivity. Qed.

Lemma contains_infix (needle before after : string) :
  contains needle (before ++ needle ++ after) = true.
Proof.
  apply contains_append_left, contains_startswith, startswith_append.
Qed.

Lemma icontains_empty (field : string) : icontains field "" = true.
Proof. unfold icontains. simpl lower. apply contains_empty. Qed.

Lemma filter_all {A} (f : A -> bool) (l : list A) :
  (forall x, f x = true) -> filter f l = l.
Proof.
  intros Hf. induction l as [|x l IH]; simpl.
  - reflexivity.
  - rewrite Hf, IH. reflexivity.
Qed.

Lemma filter_filter {A} (f g : A -> bool) (l : list A) :
  (forall x, f x = true -> g x = true) ->
  filter f (filter g l) = filter f l.
Proof.
  intros Hfg. induction l as [|x l IH]; simpl.
  - reflexivity.
  - destruct (g x) eqn:Eg; simpl.
    + rewrite IH. reflexivity.
    + destruct (f x) eqn:Ef.
      * rewrite (Hfg x Ef) in Eg. discriminate.
      * exact IH.
Qed.

(** ** Running the monad *)

Ltac run :=
  unfold bind, ret, lift, emit, raise, read_ledger, write_ledger,
    try_except; simpl.

Ltac run_in H :=
  unfold bind, ret, lift, emit, raise, read_ledger, write_ledger,
    try_except in H; simpl in H.

(** ** BalancePagination *)

(** C1. With no account selector, the balance of the envelope is the
    amount of [sum_dest_amount(queryset)] minus the amount of
    [sum_orig_amount(queryset)], and its unit is the unit of the
    destination sum. *)
Theorem balance_without_selector :
  forall (MD : Models) (FW : Framework)
         (queryset : QuerySet) (request : Request) (view : View.t)
         (w : World) (d o : Totals.t) (page : option Page),
    View.selector view = None ->
    sum_dest_amount_rule queryset = Ok d ->
    sum_orig_amount_rule queryset = Ok o ->
    PageNumberPagination.paginate_queryset queryset request view = Ok page ->
    exists self w',
      BalancePagination.paginate_queryset queryset request view w
        = (Ok (self, option_map object_list page), w')
      /\ BalancePagination.balance_amount self
           = Totals.amount d - Totals.amount o
      /\ BalancePagination.balance_unit self = Totals.unit d
      /\ forall data p, page = Some p ->
           exists resp,
             BalancePagination.get_paginated_response self data = Ok resp
             /\ body_field resp "balance"
                  = Some (JInt (Totals.amount d - Totals.amount o))
             /\ body_field resp "unit" = Some (JStr (Totals.unit d)).
Proof.
  intros MD FW queryset request view w d o page Hsel Hd Ho Hpage.
  unfold BalancePagination.paginate_queryset, sum_dest_amount,
    sum_orig_amount.
  rewrite Hsel. run. rewrite Hd, Ho, Hpage. simpl.
  eexists. eexists. split; [reflexivity|].
  simpl. repeat split.
  intros data p ->. eexists. split; [reflexivity|].
  split; reflexivity.
Qed.

Lemma balance_without_selector_witness :
  exists self w',
    @BalancePagination.paginate_queryset Fixture.models Fixture.framework
      Fixture.the_ledger
      (mkRequest [] "alice") (Fixture.view [] Fixture.xia None 2)
      Fixture.world
      = (Ok (self, Some [Fixture.t_ab; Fixture.t_ba]), w')
    /\ BalancePagination.balance_amount self = 200 - 200
    /\ BalancePagination.balance_unit self = "usd".
Proof.
  destruct (balance_without_selector Fixture.models Fixture.framework
              Fixture.the_ledger (mkRequest [] "alice")
              (Fixture.view [] Fixture.xia None 2) Fixture.world
              (Totals.mk 200 "usd") (Totals.mk 200 "usd")
              (Some (mkPage [Fixture.t_ab; Fixture.t_ba] 3 1 2))
              eq_refl eq_refl eq_refl eq_refl)
    as (self & w' & Hrun & Hamount & Hunit & _).
  exists self, w'. repeat split; assumption.
Defined.

(** The queryset of the global list is already filtered on either
    account; filtering one side afterwards keeps exactly the rows of the
    ledger that match on that side. *)
Lemma dest_filter_after_joint_filter (selector : string) (l : Ledger) :
  filter (dest_account__icontains selector)
    (filter (Q_or (dest_account__icontains selector)
                  (orig_account__icontains selector)) l)
  = filter (dest_account__icontains selector) l.
Proof.
  apply filter_filter. intros t Ht. unfold Q_or. rewrite Ht. reflexivity.
Qed.

Lemma orig_filter_after_joint_filter (selector : string) (l : Ledger) :
  filter (orig_account__icontains selector)
    (filter (Q_or (dest_account__icontains selector)
                  (orig_account__icontains selector)) l)
  = filter (orig_account__icontains selector) l.
Proof.
  apply filter_filter. intros t Ht. unfold Q_or. rewrite Ht.
  apply orb_true_r.
Qed.

(** C2. With an account selector, the two sides are filtered
    independently: the destination sum is taken over the rows whose
    [dest_account] contains the selector, ignoring case, and the origin
    sum over the rows whose [orig_account] contains it. The two sum calls
    receive exactly these two querysets; the filter on either account
    that [get_queryset] has applied before does not change them. *)
Theorem balance_sides_filtered_independently :
  forall (MD : Models) (FW : Framework)
         (queryset : QuerySet) (request : Request) (view : View.t)
         (w : World) (selector : string) (d o : Totals.t)
         (page : option Page),
    View.selector view = Some selector ->
    sum_dest_amount_rule
      (filter (dest_account__icontains selector) queryset) = Ok d ->
    sum_orig_amount_rule
      (filter (orig_account__icontains selector) queryset) = Ok o ->
    PageNumberPagination.paginate_queryset queryset request view = Ok page ->
    exists self w',
      BalancePagination.paginate_queryset queryset request view w
        = (Ok (self, option_map object_list page), w')
      /\ BalancePagination.balance_amount self
           = Totals.amount d - Totals.amount o
      /\ BalancePagination.balance_unit self = Totals.unit d
      /\ trace w'
           = (trace w ++
              [call_sum_dest_amount
                 (filter (dest_account__icontains selector) queryset);
               call_sum_orig_amount
                 (filter (orig_account__icontains selector) queryset)])%list
      /\ (forall t,
            In t (filter (dest_account__icontains selector) queryset)
            <-> In t queryset
                /\ contains (lower selector) (lower (dest_account t)) = true)
      /\ (forall t,
            In t (filter (orig_account__icontains selector) queryset)
            <-> In t queryset
                /\ contains (lower selector) (lower (orig_account t)) = true)
      /\ (forall l,
            let joint := filter (Q_or (dest_account__icontains selector)
                                      (orig_account__icontains selector)) l in
            filter (dest_account__icontains selector) joint
              = filter (dest_account__icontains selector) l
            /\ filter (orig_account__icontains selector) joint
              = filter (orig_account__icontains selector) l).
Proof.
  intros MD FW queryset request view w selector d o page Hsel Hd Ho Hpage.
  unfold BalancePagination.paginate_queryset, sum_dest_amount,
    sum_orig_amount.
  rewrite Hsel. run. rewrite Hd. simpl. rewrite Ho, Hpage. simpl.
  eexists. eexists. split; [reflexivity|]. simpl.
  split; [reflexivity|]. split; [reflexivity|].
  split; [rewrite <- app_assoc; reflexivity|].
  split; [intros t; apply filter_In|].
  split; [intros t; apply filter_In|].
  intros l. split.
  - apply dest_filter_after_joint_filter.
  - apply orig_filter_after_joint_filter.
Qed.

Lemma balance_sides_filtered_independently_witness :
  exists self w',
    @BalancePagination.paginate_queryset Fixture.models Fixture.framework
      [Fixture.t_ab; Fixture.t_ba] (mkRequest [("selector", "a")] "alice")
      (View.set_selector (Fixture.view [("selector", "a")] Fixture.xia None 2)
                         (Some "a"))
      Fixture.world
      = (Ok (self, Some [Fixture.t_ab; Fixture.t_ba]), w')
    /\ BalancePagination.balance_amount self = 30 - 100
    /\ trace w' = [call_sum_dest_amount [Fixture.t_ba];
                   call_sum_orig_amount [Fixture.t_ab]].
Proof.
  destruct (balance_sides_filtered_independently
              Fixture.models Fixture.framework
              [Fixture.t_ab; Fixture.t_ba]
              (mkRequest [("selector", "a")] "alice")
              (View.set_selector
                 (Fixture.view [("selector", "a")] Fixture.xia None 2)
                 (Some "a"))
              Fixture.world "a"
              (Totals.mk 30 "usd") (Totals.mk 100 "usd")
              (Some (mkPage [Fixture.t_ab; Fixture.t_ba] 2 1 1))
              eq_refl eq_refl eq_refl eq_refl)
    as (self & w' & Hrun & Hamount & _ & Htrace & _).
  exists self, w'. repeat split; assumption.
Defined.

(** On the fixture A->B, B->A with selector "A": the sides filtered
    independently give 30 - 100; the same sums over the rows that match
    on either side would give 130 - 130. *)
Example selector_fixture_independent_not_joint :
  let queryset := [Fixture.t_ab; Fixture.t_ba] in
  let joint := filter (Q_or (dest_account__icontains "A")
                            (orig_account__icontains "A")) queryset in
  SpecModel.sum_dest_amount (filter (dest_account__icontains "A") queryset)
    = Ok (Totals.mk 30 "usd")
  /\ SpecModel.sum_orig_amount (filter (orig_account__icontains "A") queryset)
    = Ok (Totals.mk 100 "usd")
  /\ SpecModel.sum_dest_amount joint = Ok (Totals.mk 130 "usd")
  /\ SpecModel.sum_orig_amount joint = Ok (Totals.mk 130 "usd").
Proof. repeat split. Qed.

(** ** The list requests, run *)

Lemma transaction_get_queryset_run (FW : Framework) (v : View.t) (w : World) :
  TransactionListAPIView.get_queryset v w
  = (Ok (View.set_selector v
           (QueryDict.lookup (GET (View.request v)) "selector"),
         global_queryset v (ledger w)), w).
Proof.
  unfold TransactionListAPIView.get_queryset,
    SmartTransactionListMixin.get_queryset, SortableListMixin.get_queryset,
    TransactionFilterMixin.get_queryset, DateRangeMixin.get_queryset,
    SearchableListMixin.get_queryset, TransactionQuerysetMixin.get_queryset,
    Transaction_objects_all, global_queryset, sort_stage, filter_stage.
  destruct (QueryDict.lookup (GET (View.request v)) "selector");
    reflexivity.
Qed.

Lemma balance_paginate_run (MD : Models) (FW : Framework)
    (queryset : QuerySet) (request : Request) (view : View.t) (w : World)
    (self : BalancePagination.t) (rows : option (list Transaction))
    (w' : World) :
  BalancePagination.paginate_queryset queryset request view w
    = (Ok (self, rows), w') ->
  exists d o,
    sum_dest_amount_rule (dest_side (View.selector view) queryset) = Ok d
    /\ sum_orig_amount_rule (orig_side (View.selector view) queryset) = Ok o
    /\ BalancePagination.balance_amount self
         = Totals.amount d - Totals.amount o
    /\ BalancePagination.balance_unit self = Totals.unit d
    /\ trace w'
         = (trace w ++
            [call_sum_dest_amount (dest_side (View.selector view) queryset);
             call_sum_orig_amount (orig_side (View.selector view) queryset)]
           )%list.
Proof.
  unfold BalancePagination.paginate_queryset, sum_dest_amount,
    sum_orig_amount, dest_side, orig_side.
  destruct (View.selector view) as [selector|]; run;
    (destruct (sum_dest_amount_rule _) as [d|e]; simpl; [|discriminate]);
    (destruct (sum_orig_amount_rule _) as [o|e]; simpl; [|discriminate]);
    (destruct (PageNumberPagination.paginate_queryset _ _ _) as [pg|e];
     simpl; [|discriminate]);
    intros H; injection H as <- <- <-; exists d, o; simpl;
    rewrite <- app_assoc; repeat split.
Qed.

Lemma transaction_list_run (MD : Models) (FW : Framework)
    (v : View.t) (w : World) (r : Response) (w' : World) :
  TransactionListAPIView.list v w = (Ok r, w') ->
  let sel := QueryDict.lookup (GET (View.request v)) "selector" in
  let queryset := global_queryset v (ledger w) in
  exists d o,
    sum_dest_amount_rule (dest_side sel queryset) = Ok d
    /\ sum_orig_amount_rule (orig_side sel queryset) = Ok o
    /\ (forall x, body_field r "balance" = Some x ->
                  x = JInt (Totals.amount d - Totals.amount o))
    /\ (forall x, body_field r "unit" = Some x -> x = JStr (Totals.unit d))
    /\ trace w'
         = (trace w ++ [call_sum_dest_amount (dest_side sel queryset);
                        call_sum_orig_amount (orig_side sel queryset)])%list.
Proof.
  unfold TransactionListAPIView.list, ListModelMixin_list.
  unfold bind at 1. rewrite transaction_get_queryset_run.
  unfold bind at 1.
  destruct (BalancePagination.paginate_queryset _ _ _ w)
    as [[[self rows]|e] w2] eqn:E; [|discriminate].
  apply balance_paginate_run in E.
  destruct E as (d & o & Hd & Ho & Hamount & Hunit & Htrace).
  simpl in Hd, Ho, Htrace. intros Hresp. simpl.
  exists d, o. split; [exact Hd|]. split; [exact Ho|].
  destruct rows as [rows|]; run_in Hresp.
  - unfold BalancePagination.get_paginated_response in Hresp.
    destruct (BalancePagination.page self) as [p|]; [|discriminate].
    injection Hresp as <- <-. unfold body_field. simpl.
    rewrite Hamount, Hunit.
    repeat split; try assumption; intros x Hx; injection Hx as <-;
      reflexivity.
  - injection Hresp as <- <-. unfold body_field. simpl.
    repeat split; try assumption; intros x Hx; discriminate.
Qed.

Lemma receivables_scoped_queryset_run (MD : Models) (FW : Framework)
    (v : View.t) (w : World) :
  ReceivablesListAPIView.scoped_queryset v w
  = (Ok (v, receivables_queryset v (ledger w)),
     mkWorld (ledger w)
             (trace w ++ [call_receivables (View.provider v)])).
Proof. reflexivity. Qed.

Lemma receivables_list_run (MD : Models) (FW : Framework)
    (v : View.t) (w : World) (r : Response) (w' : World) :
  ReceivablesListAPIView.list v w = (Ok r, w') ->
  let queryset := receivables_queryset v (ledger w) in
  exists tot,
    sum_orig_amount_rule queryset = Ok tot
    /\ (forall x, body_field r "total" = Some x ->
                  x = JInt (Totals.amount tot))
    /\ (forall x, body_field r "unit" = Some x ->
                  x = JStr (Totals.unit tot))
    /\ trace w'
         = (trace w ++ [call_receivables (View.provider v);
                        call_sum_orig_amount queryset])%list.
Proof.
  unfold ReceivablesListAPIView.list, ListModelMixin_list,
    ReceivablesListAPIView.get_queryset, SortableListMixin.get_queryset,
    TotalAnnotateMixin.get_queryset.
  unfold bind at 1 2 3. rewrite receivables_scoped_queryset_run.
  unfold sum_orig_amount, TotalPagination.paginate_queryset. run.
  destruct (sum_orig_amount_rule _) as [tot|e]; simpl; [|discriminate].
  destruct (PageNumberPagination.paginate_queryset _ _ _) as [pg|e];
    simpl; [|discriminate].
  intros Hresp. exists tot. split; [reflexivity|].
  destruct pg as [p|]; simpl in Hresp; injection Hresp as <- <-;
    unfold body_field; simpl; rewrite <- app_assoc; repeat split;
    intros x Hx; try discriminate; injection Hx as <-; reflexivity.
Qed.

(** ** Paging does not change the aggregate *)

Lemma global_queryset_same_filter (FW : Framework) (v1 v2 : View.t)
    (l : Ledger) :
  same_query_except "page" v1 v2 ->
  global_queryset v1 l = global_queryset v2 l.
Proof.
  intros (_ & _ & Hstart & Hends & Hget).
  unfold global_queryset, sort_stage, filter_stage.
  rewrite Hstart, Hends.
  rewrite (Hget "selector"), (Hget "q"), (Hget "o"), (Hget "ot");
    solve [reflexivity | discriminate].
Qed.

Lemma receivables_queryset_same_filter (MD : Models) (FW : Framework)
    (v1 v2 : View.t) (l : Ledger) :
  same_query_except "page" v1 v2 ->
  receivables_queryset v1 l = receivables_queryset v2 l.
Proof.
  intros (_ & Hprov & Hstart & Hends & Hget).
  unfold receivables_queryset, filter_stage.
  rewrite Hprov, Hstart, Hends.
  rewrite (Hget "q"); solve [reflexivity | discriminate].
Qed.

Lemma count_calls_app (p : Call -> bool) (tr extra : list Call) :
  count_calls p (tr ++ extra)
  = (count_calls p tr + count_calls p extra)%nat.
Proof.
  unfold count_calls. rewrite filter_app, length_app. reflexivity.
Qed.

(** C3. The aggregate of the envelope is computed over the full
    filtered set, before the page is cut: two requests that carry the
    same filter and differ in the page number or the page size get the
    same balance (global list) and the same total (receivables), from
    the same sum calls, made once per request. *)
Theorem aggregate_independent_of_page :
  forall (MD : Models) (FW : Framework) (v1 v2 : View.t) (w : World),
    same_query_except "page" v1 v2 ->
    (forall r1 w1 r2 w2,
        TransactionListAPIView.list v1 w = (Ok r1, w1) ->
        TransactionListAPIView.list v2 w = (Ok r2, w2) ->
        (forall b1 b2, body_field r1 "balance" = Some b1 ->
                       body_field r2 "balance" = Some b2 -> b1 = b2)
        /\ (forall u1 u2, body_field r1 "unit" = Some u1 ->
                          body_field r2 "unit" = Some u2 -> u1 = u2)
        /\ trace w1 = trace w2
        /\ count_calls is_sum_call (trace w1)
           = (count_calls is_sum_call (trace w) + 2)%nat)
    /\ (forall r1 w1 r2 w2,
        ReceivablesListAPIView.list v1 w = (Ok r1, w1) ->
        ReceivablesListAPIView.list v2 w = (Ok r2, w2) ->
        (forall b1 b2, body_field r1 "total" = Some b1 ->
                       body_field r2 "total" = Some b2 -> b1 = b2)
        /\ (forall u1 u2, body_field r1 "unit" = Some u1 ->
                          body_field r2 "unit" = Some u2 -> u1 = u2)
        /\ trace w1 = trace w2
        /\ count_calls is_sum_call (trace w1)
           = (count_calls is_sum_call (trace w) + 1)%nat).
Proof.
  intros MD FW v1 v2 w Hsame. split; intros r1 w1 r2 w2 H1 H2.
  - apply transaction_list_run in H1, H2. simpl in H1, H2.
    destruct H1 as (d1 & o1 & Hd1 & Ho1 & Hb1 & Hu1 & Ht1).
    destruct H2 as (d2 & o2 & Hd2 & Ho2 & Hb2 & Hu2 & Ht2).
    pose proof Hsame as (_ & _ & _ & _ & Hget).
    rewrite <- (global_queryset_same_filter FW v1 v2 (ledger w) Hsame),
      <- (Hget "selector") in Hd2, Ho2, Ht2 by discriminate.
    rewrite Hd1 in Hd2. rewrite Ho1 in Ho2.
    injection Hd2 as <-. injection Ho2 as <-.
    repeat split.
    + intros b1 b2 E1 E2. rewrite (Hb1 _ E1), (Hb2 _ E2). reflexivity.
    + intros u1 u2 E1 E2. rewrite (Hu1 _ E1), (Hu2 _ E2). reflexivity.
    + rewrite Ht1, Ht2. reflexivity.
    + rewrite Ht1, count_calls_app. reflexivity.
  - apply receivables_list_run in H1, H2. simpl in H1, H2.
    destruct H1 as (t1 & Hs1 & Hb1 & Hu1 & Ht1).
    destruct H2 as (t2 & Hs2 & Hb2 & Hu2 & Ht2).
    pose proof Hsame as (_ & Hprov & _).
    rewrite <- (receivables_queryset_same_filter MD FW v1 v2 (ledger w)
                  Hsame) in Hs2, Ht2.
    rewrite <- Hprov in Ht2.
    rewrite Hs1 in Hs2. injection Hs2 as <-.
    repeat split.
    + intros b1 b2 E1 E2. rewrite (Hb1 _ E1), (Hb2 _ E2). reflexivity.
    + intros u1 u2 E1 E2. rewrite (Hu1 _ E1), (Hu2 _ E2). reflexivity.
    + rewrite Ht1, Ht2. reflexivity.
    + rewrite Ht1, count_calls_app. reflexivity.
Qed.

Lemma fixture_pages_same_filter :
  same_query_except "page" Fixture.first_page Fixture.second_page.
Proof.
  repeat split. intros k Hk. cbn -[String.eqb].
  destruct (String.eqb_spec "page" k) as [E|E].
  - symmetry in E. contradiction.
  - reflexivity.
Defined.

Lemma aggregate_independent_of_page_witness :
  let run1 := @TransactionListAPIView.list Fixture.models Fixture.framework
                Fixture.first_page Fixture.world in
  let run2 := @TransactionListAPIView.list Fixture.models Fixture.framework
                Fixture.second_page Fixture.world in
  let recv1 := @ReceivablesListAPIView.list Fixture.models Fixture.framework
                 Fixture.first_page Fixture.world in
  let recv2 := @ReceivablesListAPIView.list Fixture.models Fixture.framework
                 Fixture.second_page Fixture.world in
  body_field (response_of run1) "balance" = Some (JInt (-70))
  /\ body_field (response_of run2) "balance" = Some (JInt (-70))
  /\ body_field (response_of run1) "results"
     <> body_field (response_of run2) "results"
  /\ body_field (response_of recv1) "total" = Some (JInt 100)
  /\ body_field (response_of recv2) "total" = Some (JInt 100)
  /\ (forall b1 b2,
        body_field (response_of run1) "balance" = Some b1 ->
        body_field (response_of run2) "balance" = Some b2 -> b1 = b2)
  /\ (forall b1 b2,
        body_field (response_of recv1) "total" = Some b1 ->
        body_field (response_of recv2) "total" = Some b2 -> b1 = b2).
Proof.
  intros run1 run2 recv1 recv2.
  split; [reflexivity|]. split; [reflexivity|]. split; [discriminate|].
  split; [reflexivity|]. split; [reflexivity|].
  pose proof (aggregate_independent_of_page
                Fixture.models Fixture.framework
                Fixture.first_page Fixture.second_page Fixture.world
                fixture_pages_same_filter) as [Hbalance Htotal].
  split.
  - exact (proj1 (Hbalance (response_of run1) (snd run1)
                           (response_of run2) (snd run2) eq_refl eq_refl)).
  - exact (proj1 (Htotal (response_of recv1) (snd recv1)
                         (response_of recv2) (snd recv2) eq_refl eq_refl)).
Defined.

(** ** StatementBalancePagination *)

Lemma skipn_length_app {A} (l extra : list A) :
  skipn (List.length l) (l ++ extra) = extra.
Proof. induction l as [|x l IH]; simpl; [reflexivity | exact IH]. Qed.

(** C4, as stated, fails: the call does not carry the [ends_at] of the
    date filter. On the fixture, the filter ends at 3 and the one call
    made passes the organization alone. *)
Lemma statement_call_ignores_ends_at :
  ~ @statement_call_uses_ends_at Fixture.models Fixture.framework
      Fixture.billings_view Fixture.world.
Proof.
  unfold statement_call_uses_ends_at. vm_compute. discriminate.
Qed.

(** The balance shown is the balance as of now (100), not the balance
    as of the [ends_at] shown next to it (0). *)
Example billings_fixture_balance_is_current :
  let resp := response_of
                (@BillingsAPIView.list Fixture.models Fixture.framework
                   Fixture.billings_view Fixture.world) in
  body_field resp "ends_at" = Some (JInt 3)
  /\ body_field resp "balance" = Some (JInt 100)
  /\ Fixture.statement_balance Fixture.the_ledger Fixture.xia (Some 3)
     = Ok (0, "usd")
  /\ Fixture.statement_balance Fixture.the_ledger Fixture.xia None
     = Ok (100, "usd").
Proof. repeat split. Qed.

(** C4, amended. A billings request makes exactly one call to the
    statement-balance rule, with the organization alone (no as-of date is
    passed); when the rule answers and the page exists, the envelope
    carries that answer as balance and unit, next to the [ends_at] of the
    date filter. *)
Theorem billings_statement_balance_called_once :
  forall (MD : Models) (FW : Framework) (v : View.t) (w : World),
    let org := View.organization v in
    let queryset :=
      sort_stage v (filter_stage v (by_customer_rule (ledger w) org)) in
    trace (snd (BillingsAPIView.list v w))
      = (trace w ++ [call_by_customer org;
                     call_get_statement_balance org None])%list
    /\ statement_balance_calls w (snd (BillingsAPIView.list v w))
       = [call_get_statement_balance org None]
    /\ forall amount unit pg,
        statement_balance_rule (ledger w) org None = Ok (amount, unit) ->
        page_of (View.page_size v)
                (QueryDict.lookup (GET (View.request v)) "page") queryset
          = Ok (Some pg) ->
        exists resp,
          fst (BillingsAPIView.list v w) = Ok resp
          /\ body_field resp "balance" = Some (JInt amount)
          /\ body_field resp "unit" = Some (JStr unit)
          /\ body_field resp "ends_at"
             = Some (json_of_datetime (View.ends_at v)).
Proof.
  intros MD FW v w org queryset.
  assert (Htrace :
    trace (snd (BillingsAPIView.list v w))
    = (trace w ++ [call_by_customer org;
                   call_get_statement_balance org None])%list).
  { unfold BillingsAPIView.list, ListModelMixin_list,
      BillingsAPIView.get_queryset, SmartTransactionListMixin.get_queryset,
      SortableListMixin.get_queryset, TransactionFilterMixin.get_queryset,
      DateRangeMixin.get_queryset, SearchableListMixin.get_queryset,
      BillingsQuerysetMixin.get_queryset, by_customer,
      StatementBalancePagination.paginate_queryset, get_statement_balance.
    run. fold org.
    destruct (statement_balance_rule (ledger w) org None) as [[a u]|e];
      simpl; [|rewrite <- app_assoc; reflexivity].
    destruct (PageNumberPagination.paginate_queryset _ _ _) as [[p|]|e];
      simpl; rewrite <- app_assoc; reflexivity. }
  split; [exact Htrace|]. split.
  - unfold statement_balance_calls. rewrite Htrace, skipn_length_app.
    reflexivity.
  - intros amount unit pg Hrule Hpage.
    unfold BillingsAPIView.list, ListModelMixin_list,
      BillingsAPIView.get_queryset, SmartTransactionListMixin.get_queryset,
      SortableListMixin.get_queryset, TransactionFilterMixin.get_queryset,
      DateRangeMixin.get_queryset, SearchableListMixin.get_queryset,
      BillingsQuerysetMixin.get_queryset, by_customer,
      StatementBalancePagination.paginate_queryset, get_statement_balance,
      PageNumberPagination.paginate_queryset.
    run. fold org. rewrite Hrule. simpl.
    unfold queryset, sort_stage, filter_stage in Hpage. rewrite Hpage.
    simpl. eexists. split; [reflexivity|]. repeat split.
Qed.

Lemma billings_statement_balance_called_once_witness :
  let run := @BillingsAPIView.list Fixture.models Fixture.framework
               Fixture.billings_view Fixture.world in
  trace (snd run)
    = [call_by_customer Fixture.xia;
       call_get_statement_balance Fixture.xia None]
  /\ exists resp,
       fst run = Ok resp
       /\ body_field resp "balance" = Some (JInt 100)
       /\ body_field resp "unit" = Some (JStr "usd")
       /\ body_field resp "ends_at" = Some (JInt 3).
Proof.
  destruct (billings_statement_balance_called_once
              Fixture.models Fixture.framework
              Fixture.billings_view Fixture.world)
    as (Htrace & _ & Hresp).
  split; [exact Htrace|].
  exact (Hresp 100 "usd" (mkPage [] 0 1 1) eq_refl eq_refl).
Defined.

(** ** Transfers: the reconciliation policy *)

Lemma transfer_get_queryset_run (MD : Models) (v : View.t) (w : World) :
  TransferQuerysetMixin.get_queryset v w
  = (match get_transfers_rule (ledger w) (View.organization v)
             (negb (force_flag (View.request v))) with
     | Ok queryset => Ok (v, queryset)
     | Raise e => Raise e
     end,
     mkWorld (ledger w)
       (trace w ++ [call_get_transfers (View.organization v)
                      (negb (force_flag (View.request v)))])).
Proof.
  unfold TransferQuerysetMixin.get_queryset, get_transfers,
    TransferQuerysetMixin.reconcile, force_flag.
  run. destruct (get_transfers_rule _ _ _); reflexivity.
Qed.

(** C5. The transfers are fetched with [reconcile] the negation of the
    force flag. With the flag false, which is the case when the
    parameter is absent, the queryset holds the settled transfers of the
    organization only, so an unreconciled row is left out; with the flag
    true it holds all its transfers, pending ones included. *)
Theorem transfers_reconcile_unless_forced :
  forall (MD : Models)
         (is_transfer : Organization -> Transaction -> bool)
         (is_reconciled : Transaction -> bool)
         (v : View.t) (w : World),
    (forall l org reconcile,
        get_transfers_rule l org reconcile
        = Ok (SpecModel.get_transfers is_transfer is_reconciled
                                      l org reconcile)) ->
    let org := View.organization v in
    let force := force_flag (View.request v) in
    let run := TransferQuerysetMixin.get_queryset v w in
    fst run = Ok (v, SpecModel.get_transfers is_transfer is_reconciled
                       (ledger w) org (negb force))
    /\ trace (snd run)
       = (trace w ++ [call_get_transfers org (negb force)])%list
    /\ (QueryDict.lookup (GET (View.request v)) "force" = None ->
        force = false)
    /\ (force = false ->
        forall t, In t (queryset_of run)
                  <-> In t (ledger w) /\ is_transfer org t = true
                      /\ is_reconciled t = true)
    /\ (force = true ->
        forall t, In t (queryset_of run)
                  <-> In t (ledger w) /\ is_transfer org t = true).
Proof.
  intros MD is_transfer is_reconciled v w Hrule org force run.
  unfold run, queryset_of. rewrite transfer_get_queryset_run, Hrule.
  fold org force. simpl.
  split; [reflexivity|]. split; [reflexivity|]. split.
  - unfold force, force_flag, QueryDict.get. intros ->. reflexivity.
  - split; intros -> t; unfold SpecModel.get_transfers; simpl;
      rewrite filter_In, andb_true_iff; tauto.
Qed.

Lemma transfers_reconcile_unless_forced_witness :
  let default := @TransferQuerysetMixin.get_queryset Fixture.models
                   (Fixture.view [] Fixture.xia None 5) Fixture.world in
  let forced := @TransferQuerysetMixin.get_queryset Fixture.models
                  (Fixture.view [("force", "1")] Fixture.xia None 5)
                  Fixture.world in
  Fixture.is_reconciled Fixture.t_pending = false
  /\ ~ In Fixture.t_pending (queryset_of default)
  /\ In Fixture.t_pending (queryset_of forced).
Proof.
  intros default forced. split; [reflexivity|]. split.
  - destruct (transfers_reconcile_unless_forced
                Fixture.models Fixture.is_transfer Fixture.is_reconciled
                (Fixture.view [] Fixture.xia None 5) Fixture.world
                (fun l org reconcile => eq_refl))
      as (_ & _ & _ & Hdefault & _).
    intros Hin. apply (Hdefault eq_refl) in Hin.
    destruct Hin as (_ & _ & Hrec). discriminate Hrec.
  - destruct (transfers_reconcile_unless_forced
                Fixture.models Fixture.is_transfer Fixture.is_reconciled
                (Fixture.view [("force", "1")] Fixture.xia None 5)
                Fixture.world (fun l org reconcile => eq_refl))
      as (_ & _ & _ & _ & Hforced).
    apply (Hforced eq_refl). split; [|reflexivity].
    right. right. left. reflexivity.
Defined.

(** C6. The raw parameter is coerced with Python truthiness: any
    non-empty value of [force], the strings "false" and "0" among them,
    fetches the transfers with [reconcile=False]; [reconcile] is true
    exactly when the parameter is absent or bound to the empty string. *)
Theorem force_is_truthiness_of_raw_string :
  forall (MD : Models) (v : View.t) (w : World),
    let request := View.request v in
    let run := TransferQuerysetMixin.get_queryset v w in
    (forall s,
        QueryDict.lookup (GET request) "force" = Some s -> s <> "" ->
        TransferQuerysetMixin.reconcile request = false
        /\ trace (snd run)
           = (trace w ++ [call_get_transfers (View.organization v) false]
             )%list
        /\ fst run
           = match get_transfers_rule (ledger w) (View.organization v)
                                      false with
             | Ok queryset => Ok (v, queryset)
             | Raise e => Raise e
             end)
    /\ (TransferQuerysetMixin.reconcile request = true
        <-> QueryDict.lookup (GET request) "force" = None
            \/ QueryDict.lookup (GET request) "force" = Some "").
Proof.
  intros MD v w request run. split.
  - intros s Hs Hne.
    assert (Hforce : force_flag request = true).
    { unfold force_flag, QueryDict.get. rewrite Hs. simpl.
      destruct (String.eqb_spec s ""); [contradiction | reflexivity]. }
    unfold run. rewrite transfer_get_queryset_run. fold request.
    unfold TransferQuerysetMixin.reconcile. fold (force_flag request).
    rewrite Hforce. simpl. repeat split.
  - unfold TransferQuerysetMixin.reconcile, QueryDict.get.
    destruct (QueryDict.lookup (GET request) "force") as [s|]; simpl.
    + rewrite negb_involutive. split.
      * intros Hs. apply String.eqb_eq in Hs. subst s. right. reflexivity.
      * intros [Hs|Hs]; [discriminate|]. injection Hs as ->. reflexivity.
    + split; [intros _; left; reflexivity | reflexivity].
Qed.

Lemma force_is_truthiness_of_raw_string_witness :
  TransferQuerysetMixin.reconcile (mkRequest [("force", "false")] "alice")
    = false
  /\ TransferQuerysetMixin.reconcile (mkRequest [("force", "0")] "alice")
    = false
  /\ TransferQuerysetMixin.reconcile (mkRequest [("force", "")] "alice")
    = true
  /\ In Fixture.t_pending
        (queryset_of
           (@TransferQuerysetMixin.get_queryset Fixture.models
              (Fixture.view [("force", "false")] Fixture.xia None 5)
              Fixture.world)).
Proof.
  split.
  - exact (proj1 (proj1 (force_is_truthiness_of_raw_string
                           Fixture.models
                           (Fixture.view [("force", "false")]
                                         Fixture.xia None 5)
                           Fixture.world)
                        "false" eq_refl ltac:(discriminate))).
  - split.
    + apply (proj1 (force_is_truthiness_of_raw_string
                      Fixture.models
                      (Fixture.view [("force", "0")] Fixture.xia None 5)
                      Fixture.world) "0" eq_refl).
      discriminate.
    + split.
      * apply (proj2 (force_is_truthiness_of_raw_string
                        Fixture.models
                        (Fixture.view [("force", "")] Fixture.xia None 5)
                        Fixture.world)).
        right. reflexivity.
      * unfold queryset_of.
        rewrite (proj2 (proj2 (proj1 (force_is_truthiness_of_raw_string
                        Fixture.models
                        (Fixture.view [("force", "false")]
                                      Fixture.xia None 5)
                        Fixture.world) "false" eq_refl ltac:(discriminate)))).
        right. right. left. reflexivity.
Defined.

(** ** Transfers: the processor error *)

(** C7. When the processor backend raises [ProcessorError] while the
    transfers are listed, the view raises a [ValidationError] whose
    detail embeds the message of the backend error; the client gets a
    4xx response with that detail, and the listing never lets a
    [ProcessorError] through. *)
Theorem processor_error_becomes_validation_error :
  forall (MD : Models) (FW : Framework) (v : View.t) (w : World),
    (forall msg w',
        TransferListAPIView.super_list v w
          = (Raise (ProcessorError msg), w') ->
        exists detail,
          TransferListAPIView.list v w = (Raise (ValidationError detail), w')
          /\ contains msg detail = true
          /\ is_client_error
               (status (fst (dispatch (TransferListAPIView.list v) w)))
             = true
          /\ body_field (fst (dispatch (TransferListAPIView.list v) w))
                        "detail" = Some (JStr detail))
    /\ (forall msg,
          fst (TransferListAPIView.list v w) <> Raise (ProcessorError msg)).
Proof.
  intros MD FW v w. split.
  - intros msg w' Hsuper.
    exists (TransferListAPIView.detail (ProcessorError msg)).
    assert (Hlist :
      TransferListAPIView.list v w
      = (Raise (ValidationError
                  (TransferListAPIView.detail (ProcessorError msg))), w')).
    { unfold TransferListAPIView.list, try_except. rewrite Hsuper.
      reflexivity. }
    split; [exact Hlist|]. split.
    + unfold TransferListAPIView.detail. simpl py_str.
      exact (contains_infix msg
               ("The latest transfers might"
                ++ " not be shown because there was an error with the backend"
                ++ " processor (ie. ") ").").
    + unfold dispatch. rewrite Hlist. split; reflexivity.
  - intros msg. unfold TransferListAPIView.list, try_except.
    destruct (TransferListAPIView.super_list v w) as [[r|e] w'].
    + discriminate.
    + destruct e; discriminate.
Qed.

Lemma processor_error_becomes_validation_error_witness :
  let v := Fixture.view [] Fixture.xia None 5 in
  exists detail,
    @TransferListAPIView.list Fixture.failing_models Fixture.framework
      v Fixture.world
    = (Raise (ValidationError detail),
       mkWorld Fixture.the_ledger [call_get_transfers Fixture.xia true])
    /\ contains "connection timed out" detail = true
    /\ is_client_error
         (status (fst (dispatch
                         (@TransferListAPIView.list Fixture.failing_models
                            Fixture.framework v) Fixture.world)))
       = true.
Proof.
  intros v.
  destruct (proj1 (processor_error_becomes_validation_error
                     Fixture.failing_models Fixture.framework v
                     Fixture.world)
                  "connection timed out"
                  (mkWorld Fixture.the_ledger
                           [call_get_transfers Fixture.xia true])
                  eq_refl)
    as (detail & Hlist & Hembeds & Hstatus & _).
  exists detail. repeat split; assumption.
Defined.

(** ** Receivables *)

(** C8. The total of the receivables envelope is the amount of
    [sum_orig_amount] over the scoped queryset, and every row of that
    queryset has an [orig_amount] strictly greater than zero. *)
Theorem receivables_total_over_positive_rows :
  forall (MD : Models) (FW : Framework) (v : View.t) (w : World)
         (tot : Totals.t) (pg : Page),
    scoping_selects ->
    let queryset := receivables_queryset v (ledger w) in
    sum_orig_amount_rule queryset = Ok tot ->
    page_of (View.page_size v)
            (QueryDict.lookup (GET (View.request v)) "page")
            (sort_stage v queryset) = Ok (Some pg) ->
    exists resp w',
      ReceivablesListAPIView.list v w = (Ok resp, w')
      /\ body_field resp "total" = Some (JInt (Totals.amount tot))
      /\ body_field resp "unit" = Some (JStr (Totals.unit tot))
      /\ fst (ReceivablesListAPIView.scoped_queryset v w)
         = Ok (v, queryset)
      /\ Forall (fun t => 0 < orig_amount t) queryset.
Proof.
  intros MD FW v w tot pg [Hdate Hsearch] queryset Hsum Hpage.
  unfold ReceivablesListAPIView.list, ListModelMixin_list,
    ReceivablesListAPIView.get_queryset, SortableListMixin.get_queryset,
    TotalAnnotateMixin.get_queryset.
  unfold bind at 1 2 3. rewrite receivables_scoped_queryset_run.
  unfold sum_orig_amount, TotalPagination.paginate_queryset,
    PageNumberPagination.paginate_queryset. run.
  fold queryset. rewrite Hsum. simpl.
  change (sort_order ReceivablesListAPIView.sort_fields_aliases
            (QueryDict.lookup (GET (View.request v)) "o")
            (QueryDict.lookup (GET (View.request v)) "ot") queryset)
    with (sort_stage v queryset).
  rewrite Hpage. simpl.
  eexists. eexists. split; [reflexivity|].
  split; [reflexivity|]. split; [reflexivity|]. split; [reflexivity|].
  apply Forall_forall. intros t Ht.
  unfold queryset, receivables_queryset, filter_stage in Ht.
  apply Hdate, Hsearch, filter_In in Ht. destruct Ht as [_ Ht].
  unfold orig_amount__gt in Ht. apply Z.ltb_lt in Ht. exact Ht.
Qed.

Lemma spec_scoping_selects : @scoping_selects Fixture.framework.
Proof.
  split.
  - intros a b queryset t Ht. apply filter_In in Ht. exact (proj1 Ht).
  - intros fields [q|] queryset t Ht; [|exact Ht].
    apply filter_In in Ht. exact (proj1 Ht).
Defined.

Lemma receivables_total_over_positive_rows_witness :
  exists resp w',
    @ReceivablesListAPIView.list Fixture.models Fixture.framework
      Fixture.first_page Fixture.world = (Ok resp, w')
    /\ body_field resp "total" = Some (JInt 100)
    /\ body_field resp "unit" = Some (JStr "usd")
    /\ Forall (fun t => 0 < orig_amount t)
              [Fixture.t_ba; Fixture.t_pending].
Proof.
  destruct (receivables_total_over_positive_rows
              Fixture.models Fixture.framework
              Fixture.first_page Fixture.world
              (Totals.mk 100 "usd")
              (mkPage [Fixture.t_ba; Fixture.t_pending] 2 1 1)
              spec_scoping_selects eq_refl eq_refl)
    as (resp & w' & Hlist & Htotal & Hunit & _ & Hpos).
  exists resp, w'. repeat split; assumption.
Defined.

(** ** Balance cancellation *)

(** C9. A balance cancellation that succeeds records the cancel
    transactions for the organization on behalf of the requesting user
    and answers 204 No Content with no body. *)
Theorem cancel_balance_no_content :
  forall (MD : Models) (v : View.t) (request : Request) (w : World)
         (l' : Ledger),
    create_cancel_transactions_rule (ledger w) (View.organization v)
                                    (user request) = Ok l' ->
    exists resp,
      CancelStatementBalanceAPIView.destroy v request w
      = (Ok resp,
         mkWorld l'
           (trace w ++ [call_create_cancel_transactions
                          (View.organization v) (user request)]))
      /\ status resp = 204
      /\ data resp = None
      /\ fst (dispatch (CancelStatementBalanceAPIView.destroy v request) w)
         = resp.
Proof.
  intros MD v request w l' Hrule.
  unfold dispatch, CancelStatementBalanceAPIView.destroy,
    create_cancel_transactions.
  run. rewrite Hrule. simpl.
  eexists. split; [reflexivity|]. repeat split.
Qed.

Lemma cancel_balance_no_content_witness :
  exists resp,
    @CancelStatementBalanceAPIView.destroy Fixture.models
      (Fixture.view [] Fixture.xia None 5) (mkRequest [] "bob")
      Fixture.world
    = (Ok resp,
       mkWorld
         (Fixture.the_ledger ++
          [mkTransaction 100 "cancelled by bob" Fixture.xia Fixture.xia
                         "Writeoff" "Liability" (-100) "usd" (-100) "usd"]
         )%list
         [call_create_cancel_transactions Fixture.xia "bob"])
    /\ status resp = 204
    /\ data resp = None.
Proof.
  destruct (cancel_balance_no_content Fixture.models
              (Fixture.view [] Fixture.xia None 5) (mkRequest [] "bob")
              Fixture.world
              (Fixture.the_ledger ++
               [mkTransaction 100 "cancelled by bob" Fixture.xia Fixture.xia
                  "Writeoff" "Liability" (-100) "usd" (-100) "usd"])%list
              eq_refl)
    as (resp & Hrun & Hstatus & Hdata & _).
  exists resp. repeat split; assumption.
Defined.

(** ** The empty selector *)

Lemma joint_filter_empty_selector (l : Ledger) :
  filter (Q_or (dest_account__icontains "") (orig_account__icontains "")) l
  = l.
Proof.
  apply filter_all. intros t. unfold Q_or, dest_account__icontains.
  rewrite icontains_empty. reflexivity.
Qed.

(** The global list request, step by step. *)
Lemma transaction_list_unfold (MD : Models) (FW : Framework)
    (v : View.t) (w : World) :
  TransactionListAPIView.list v w
  = let sel := QueryDict.lookup (GET (View.request v)) "selector" in
    let queryset := global_queryset v (ledger w) in
    let after_dest :=
      mkWorld (ledger w)
        (trace w ++ [call_sum_dest_amount (dest_side sel queryset)]) in
    let after_orig :=
      mkWorld (ledger w)
        ((trace w ++ [call_sum_dest_amount (dest_side sel queryset)])
         ++ [call_sum_orig_amount (orig_side sel queryset)]) in
    match sum_dest_amount_rule (dest_side sel queryset) with
    | Raise e => (Raise e, after_dest)
    | Ok d =>
        match sum_orig_amount_rule (orig_side sel queryset) with
        | Raise e => (Raise e, after_orig)
        | Ok o =>
            match page_of (View.page_size v)
                    (QueryDict.lookup (GET (View.request v)) "page")
                    queryset with
            | Raise e => (Raise e, after_orig)
            | Ok None =>
                (Ok (mkResponse HTTP_200_OK
                       (Some (JList (map TransactionSerializer queryset)))),
                 after_orig)
            | Ok (Some p) =>
                (Ok (mkResponse HTTP_200_OK (Some (JDict [
                   ("ends_at", json_of_datetime (View.ends_at v));
                   ("balance", JInt (Totals.amount d - Totals.amount o));
                   ("unit", JStr (Totals.unit d));
                   ("count", JInt (count p));
                   ("next",
                    json_of_link (get_next_link (View.request v) p));
                   ("previous",
                    json_of_link (get_previous_link (View.request v) p));
                   ("results",
                    JList (map TransactionSerializer (object_list p)))]))),
                 after_orig)
            end
        end
    end.
Proof.
  unfold TransactionListAPIView.list, ListModelMixin_list.
  unfold bind at 1. rewrite transaction_get_queryset_run.
  unfold BalancePagination.paginate_queryset,
    PageNumberPagination.paginate_queryset, sum_dest_amount,
    sum_orig_amount, dest_side, orig_side.
  cbn [View.selector View.set_selector View.ends_at View.page_size
       View.request].
  destruct (QueryDict.lookup (GET (View.request v)) "selector")
    as [selector|]; run;
    (destruct (sum_dest_amount_rule _) as [d|e]; simpl; [|reflexivity]);
    (destruct (sum_orig_amount_rule _) as [o|e]; simpl; [|reflexivity]);
    (destruct (page_of _ _ _) as [[p|]|e]; reflexivity).
Qed.

(** C10. On the global list, a request whose selector is the empty
    string gets the same balance and the same result set as the request
    without selector, from the same queryset and the same sum calls:
    every account name contains the empty string, so the filter of the
    queryset and the filter of each side keep every row. Only the links
    to the adjacent pages, which repeat the query string, can differ. *)
Theorem empty_selector_same_as_absent :
  forall (MD : Models) (FW : Framework) (v1 v2 : View.t) (w : World),
    same_query_except "selector" v1 v2 ->
    View.page_size v1 = View.page_size v2 ->
    QueryDict.lookup (GET (View.request v1)) "selector" = Some "" ->
    QueryDict.lookup (GET (View.request v2)) "selector" = None ->
    let run1 := TransactionListAPIView.list v1 w in
    let run2 := TransactionListAPIView.list v2 w in
    global_queryset v1 (ledger w) = global_queryset v2 (ledger w)
    /\ snd run1 = snd run2
    /\ same_outcome_but_links (fst run1) (fst run2).
Proof.
  intros MD FW v1 v2 w (_ & _ & Hstart & Hends & Hget) Hsize Hsel1 Hsel2.
  assert (Hqs : global_queryset v1 (ledger w)
                = global_queryset v2 (ledger w)).
  { unfold global_queryset, sort_stage, filter_stage.
    rewrite Hsel1, Hsel2, Hstart, Hends, joint_filter_empty_selector.
    rewrite (Hget "q"), (Hget "o"), (Hget "ot");
      solve [reflexivity | discriminate]. }
  intros run1 run2. split; [exact Hqs|]. unfold run1, run2.
  rewrite !transaction_list_unfold.
  rewrite Hsel1, Hsel2, Hqs, Hends, Hsize, (Hget "page") by discriminate.
  unfold dest_side, orig_side.
  rewrite !filter_all by (intros t; apply icontains_empty).
  unfold same_outcome_but_links. cbv zeta.
  destruct (sum_dest_amount_rule _) as [d|e]; [|split; reflexivity].
  destruct (sum_orig_amount_rule _) as [o|e]; [|split; reflexivity].
  destruct (page_of _ _ _) as [[p|]|e]; simpl;
    [|repeat split; intros H; exact H|split; reflexivity].
  split; [reflexivity|]. split; [reflexivity|]. split.
  - intros key Hnext Hprevious. unfold body_field. cbn -[String.eqb].
    destruct (String.eqb_spec "next" key) as [E|_];
      [symmetry in E; contradiction|].
    destruct (String.eqb_spec "previous" key) as [E|_];
      [symmetry in E; contradiction|].
    reflexivity.
  - intros l. split; discriminate.
Qed.

Lemma fixture_selector_same_filter :
  same_query_except "selector" Fixture.empty_selector Fixture.no_selector.
Proof.
  repeat split. intros k Hk. cbn -[String.eqb].
  destruct (String.eqb_spec "selector" k) as [E|E].
  - symmetry in E. contradiction.
  - reflexivity.
Defined.

Lemma empty_selector_same_as_absent_witness :
  let run1 := @TransactionListAPIView.list Fixture.models Fixture.framework
                Fixture.empty_selector Fixture.world in
  let run2 := @TransactionListAPIView.list Fixture.models Fixture.framework
                Fixture.no_selector Fixture.world in
  body_field (response_of run1) "balance" = Some (JInt 0)
  /\ body_field (response_of run1) "next" = Some (JStr "?selector=&page=2")
  /\ body_field (response_of run2) "next" = Some (JStr "?page=2")
  /\ snd run1 = snd run2
  /\ same_outcome_but_links (fst run1) (fst run2).
Proof.
  intros run1 run2.
  split; [reflexivity|]. split; [reflexivity|]. split; [reflexivity|].
  exact (proj2 (empty_selector_same_as_absent
                  Fixture.models Fixture.framework
                  Fixture.empty_selector Fixture.no_selector Fixture.world
                  fixture_selector_same_filter eq_refl eq_refl eq_refl)).
Defined.

(** * Further properties *)

(** ** The global list: errors, edge cases, scope *)

(** X1. Nothing is caught on the global list. An error of the
    destination sum ends the request before the origin sum is called; an
    error of the origin sum, or an invalid page, ends it after both sums
    have been called. *)
Theorem global_list_errors_propagate :
  forall (MD : Models) (FW : Framework) (v : View.t) (w : World),
    let sel := QueryDict.lookup (GET (View.request v)) "selector" in
    let queryset := global_queryset v (ledger w) in
    let dest_call := call_sum_dest_amount (dest_side sel queryset) in
    let orig_call := call_sum_orig_amount (orig_side sel queryset) in
    (forall e,
        sum_dest_amount_rule (dest_side sel queryset) = Raise e ->
        TransactionListAPIView.list v w
        = (Raise e, mkWorld (ledger w) (trace w ++ [dest_call])))
    /\ (forall d e,
        sum_dest_amount_rule (dest_side sel queryset) = Ok d ->
        sum_orig_amount_rule (orig_side sel queryset) = Raise e ->
        TransactionListAPIView.list v w
        = (Raise e,
           mkWorld (ledger w) (trace w ++ [dest_call; orig_call])))
    /\ (forall d o e,
        sum_dest_amount_rule (dest_side sel queryset) = Ok d ->
        sum_orig_amount_rule (orig_side sel queryset) = Ok o ->
        page_of (View.page_size v)
                (QueryDict.lookup (GET (View.request v)) "page") queryset
          = Raise e ->
        TransactionListAPIView.list v w
        = (Raise e,
           mkWorld (ledger w) (trace w ++ [dest_call; orig_call]))).
Proof.
  intros MD FW v w sel queryset dest_call orig_call.
  rewrite transaction_list_unfold. fold sel queryset. cbv zeta.
  fold dest_call orig_call.
  split; [|split].
  - intros e ->. reflexivity.
  - intros d e -> ->. rewrite <- app_assoc. reflexivity.
  - intros d o e -> -> ->. rewrite <- app_assoc. reflexivity.
Qed.

Lemma global_list_errors_propagate_witness :
  (exists e,
      fst (@TransactionListAPIView.list Fixture.models Fixture.framework
             (Fixture.view [] Fixture.xia None 2) Scenarios.mixed_world)
      = Raise (ValidationError e))
  /\ @TransactionListAPIView.list Fixture.models Fixture.framework
       (Fixture.view [("page", "9")] Fixture.xia None 2) Fixture.world
     = (Raise (NotFound "Invalid page."),
        mkWorld Fixture.the_ledger
                [call_sum_dest_amount Fixture.the_ledger;
                 call_sum_orig_amount Fixture.the_ledger]).
Proof.
  split.
  - eexists.
    rewrite (proj1 (global_list_errors_propagate
                      Fixture.models Fixture.framework
                      (Fixture.view [] Fixture.xia None 2)
                      Scenarios.mixed_world) _ eq_refl).
    reflexivity.
  - exact (proj2 (proj2 (global_list_errors_propagate
                           Fixture.models Fixture.framework
                           (Fixture.view [("page", "9")] Fixture.xia None 2)
                           Fixture.world))
                 (Totals.mk 200 "usd") (Totals.mk 200 "usd")
                 (NotFound "Invalid page.") eq_refl eq_refl eq_refl).
Defined.

(** X2. When pagination is off, the global list answers the plain list
    of all the rows of the queryset: both sums have been computed, and
    the response carries neither balance nor unit. *)
Theorem global_list_without_pagination :
  forall (MD : Models) (FW : Framework) (v : View.t) (w : World)
         (d o : Totals.t),
    let sel := QueryDict.lookup (GET (View.request v)) "selector" in
    let queryset := global_queryset v (ledger w) in
    sum_dest_amount_rule (dest_side sel queryset) = Ok d ->
    sum_orig_amount_rule (orig_side sel queryset) = Ok o ->
    page_of (View.page_size v)
            (QueryDict.lookup (GET (View.request v)) "page") queryset
      = Ok None ->
    exists resp,
      TransactionListAPIView.list v w
      = (Ok resp,
         mkWorld (ledger w)
           (trace w ++ [call_sum_dest_amount (dest_side sel queryset);
                        call_sum_orig_amount (orig_side sel queryset)]))
      /\ data resp = Some (JList (map TransactionSerializer queryset))
      /\ body_field resp "balance" = None
      /\ body_field resp "unit" = None.
Proof.
  intros MD FW v w d o sel queryset Hd Ho Hpage.
  rewrite transaction_list_unfold. fold sel queryset. cbv zeta.
  rewrite Hd, Ho, Hpage, <- app_assoc.
  eexists. split; [reflexivity|]. repeat split.
Qed.

Lemma global_list_without_pagination_witness :
  exists resp,
    fst (@TransactionListAPIView.list Fixture.models Fixture.framework
           (Fixture.view [] Fixture.xia None 0) Fixture.world) = Ok resp
    /\ data resp = Some (JList (map Fixture.serializer Fixture.the_ledger))
    /\ body_field resp "balance" = None.
Proof.
  destruct (global_list_without_pagination
              Fixture.models Fixture.framework
              (Fixture.view [] Fixture.xia None 0) Fixture.world
              (Totals.mk 200 "usd") (Totals.mk 200 "usd")
              eq_refl eq_refl eq_refl)
    as (resp & Hrun & Hdata & Hbalance & _).
  exists resp. rewrite Hrun. repeat split; assumption.
Defined.

(** X3. The units of the two sums are never compared: when the
    destination sum and the origin sum come back in different units, the
    balance is still the difference of the two amounts, labelled with
    the unit of the destination sum. *)
Theorem balance_units_not_compared :
  forall (MD : Models) (FW : Framework) (v : View.t) (w : World)
         (d o : Totals.t) (p : Page),
    let sel := QueryDict.lookup (GET (View.request v)) "selector" in
    let queryset := global_queryset v (ledger w) in
    sum_dest_amount_rule (dest_side sel queryset) = Ok d ->
    sum_orig_amount_rule (orig_side sel queryset) = Ok o ->
    Totals.unit d <> Totals.unit o ->
    page_of (View.page_size v)
            (QueryDict.lookup (GET (View.request v)) "page") queryset
      = Ok (Some p) ->
    exists resp,
      fst (TransactionListAPIView.list v w) = Ok resp
      /\ body_field resp "balance"
         = Some (JInt (Totals.amount d - Totals.amount o))
      /\ body_field resp "unit" = Some (JStr (Totals.unit d)).
Proof.
  intros MD FW v w d o p sel queryset Hd Ho _ Hpage.
  rewrite transaction_list_unfold. fold sel queryset. cbv zeta.
  rewrite Hd, Ho, Hpage.
  eexists. split; [reflexivity|]. split; reflexivity.
Qed.

Lemma balance_units_not_compared_witness :
  exists resp,
    fst (@TransactionListAPIView.list Fixture.models Fixture.framework
           (Fixture.view [] Fixture.xia None 2) Scenarios.conversion_world)
    = Ok resp
    /\ body_field resp "balance" = Some (JInt (110 - 100))
    /\ body_field resp "unit" = Some (JStr "usd").
Proof.
  exact (balance_units_not_compared
           Fixture.models Fixture.framework
           (Fixture.view [] Fixture.xia None 2) Scenarios.conversion_world
           (Totals.mk 110 "usd") (Totals.mk 100 "eur")
           (mkPage [Scenarios.t_conversion] 1 1 1)
           eq_refl eq_refl ltac:(discriminate) eq_refl).
Defined.



(** ** The selector *)

Lemma icontains_same_case (field s1 s2 : string) :
  lower s1 = lower s2 -> icontains field s1 = icontains field s2.
Proof. unfold icontains. intros ->. reflexivity. Qed.

Lemma filter_same {A} (f g : A -> bool) (l : list A) :
  (forall x, f x = g x) -> filter f l = filter g l.
Proof.
  intros Hfg. induction l as [|x l IH]; simpl.
  - reflexivity.
  - rewrite Hfg, IH. reflexivity.
Qed.

(** X5. The selector is matched without regard to letter case: two
    requests whose selectors differ only in the case of their letters
    get the same queryset, the same sum calls and the same balance (the
    links to the adjacent pages aside). *)
Theorem selector_ignores_case :
  forall (MD : Models) (FW : Framework) (v1 v2 : View.t) (w : World)
         (s1 s2 : string),
    same_query_except "selector" v1 v2 ->
    View.page_size v1 = View.page_size v2 ->
    QueryDict.lookup (GET (View.request v1)) "selector" = Some s1 ->
    QueryDict.lookup (GET (View.request v2)) "selector" = Some s2 ->
    lower s1 = lower s2 ->
    let run1 := TransactionListAPIView.list v1 w in
    let run2 := TransactionListAPIView.list v2 w in
    global_queryset v1 (ledger w) = global_queryset v2 (ledger w)
    /\ snd run1 = snd run2
    /\ same_outcome_but_links (fst run1) (fst run2).
Proof.
  intros MD FW v1 v2 w s1 s2 (_ & _ & Hstart & Hends & Hget) Hsize
         Hsel1 Hsel2 Hcase.
  assert (Hdest : forall t,
             dest_account__icontains s1 t = dest_account__icontains s2 t).
  { intros t. apply icontains_same_case, Hcase. }
  assert (Horig : forall t,
             orig_account__icontains s1 t = orig_account__icontains s2 t).
  { intros t. apply icontains_same_case, Hcase. }
  assert (Hqs : global_queryset v1 (ledger w)
                = global_queryset v2 (ledger w)).
  { unfold global_queryset, sort_stage, filter_stage.
    rewrite Hsel1, Hsel2, Hstart, Hends.
    rewrite (filter_same _ (Q_or (dest_account__icontains s2)
                                 (orig_account__icontains s2)))
      by (intros t; unfold Q_or; rewrite Hdest, Horig; reflexivity).
    rewrite (Hget "q"), (Hget "o"), (Hget "ot");
      solve [reflexivity | discriminate]. }
  intros run1 run2. split; [exact Hqs|]. unfold run1, run2.
  rewrite !transaction_list_unfold.
  rewrite Hsel1, Hsel2, Hqs, Hends, Hsize, (Hget "page") by discriminate.
  unfold dest_side, orig_side.
  rewrite (filter_same _ _ _ Hdest), (filter_same _ _ _ Horig).
  unfold same_outcome_but_links. cbv zeta.
  destruct (sum_dest_amount_rule _) as [d|e]; [|split; reflexivity].
  destruct (sum_orig_amount_rule _) as [o|e]; [|split; reflexivity].
  destruct (page_of _ _ _) as [[p|]|e]; simpl;
    [|repeat split; intros H; exact H|split; reflexivity].
  split; [reflexivity|]. split; [reflexivity|]. split.
  - intros key Hnext Hprevious. unfold body_field. cbn -[String.eqb].
    destruct (String.eqb_spec "next" key) as [E|_];
      [symmetry in E; contradiction|].
    destruct (String.eqb_spec "previous" key) as [E|_];
      [symmetry in E; contradiction|].
    reflexivity.
  - intros l. split; discriminate.
Qed.

Lemma selector_ignores_case_witness :
  let upper := Fixture.view [("selector", "A")] Fixture.xia (Some 50) 2 in
  let lower := Fixture.view [("selector", "a")] Fixture.xia (Some 50) 2 in
  let run1 := @TransactionListAPIView.list Fixture.models Fixture.framework
                upper Fixture.world in
  let run2 := @TransactionListAPIView.list Fixture.models Fixture.framework
                lower Fixture.world in
  body_field (response_of run1) "balance" = Some (JInt (-70))
  /\ snd run1 = snd run2
  /\ same_outcome_but_links (fst run1) (fst run2).
Proof.
  intros upper lower run1 run2. split; [reflexivity|].
  refine (proj2 (selector_ignores_case
                   Fixture.models Fixture.framework upper lower
                   Fixture.world "A" "a" _ eq_refl eq_refl eq_refl
                   eq_refl)).
  repeat split. intros k Hk. cbn -[String.eqb].
  destruct (String.eqb_spec "selector" k) as [E|E].
  - symmetry in E. contradiction.
  - reflexivity.
Defined.



Lemma fixture_scoping_selects : @scoping_selects Fixture.framework.
Proof.
  split.
  - intros a b queryset t Ht. apply filter_In in Ht. exact (proj1 Ht).
  - intros fields [q|] queryset t Ht; [|exact Ht].
    apply filter_In in Ht. exact (proj1 Ht).
Defined.


(** ** Billings and the statement balance *)

(** The billings list request, step by step. *)
Lemma billings_list_unfold (MD : Models) (FW : Framework)
    (v : View.t) (w : World) :
  BillingsAPIView.list v w
  = let org := View.organization v in
    let queryset := billings_queryset v (ledger w) in
    let after :=
      mkWorld (ledger w)
        ((trace w ++ [call_by_customer org])
         ++ [call_get_statement_balance org None]) in
    match statement_balance_rule (ledger w) org None with
    | Raise e => (Raise e, after)
    | Ok (amount, unit) =>
        match page_of (View.page_size v)
                (QueryDict.lookup (GET (View.request v)) "page")
                queryset with
        | Raise e => (Raise e, after)
        | Ok None =>
            (Ok (mkResponse HTTP_200_OK
                   (Some (JList (map TransactionSerializer queryset)))),
             after)
        | Ok (Some p) =>
            (Ok (mkResponse HTTP_200_OK (Some (JDict [
               ("ends_at", json_of_datetime (View.ends_at v));
               ("balance", JInt amount);
               ("unit", JStr unit);
               ("count", JInt (count p));
               ("next", json_of_link (get_next_link (View.request v) p));
               ("previous",
                json_of_link (get_previous_link (View.request v) p));
               ("results",
                JList (map TransactionSerializer (object_list p)))]))),
             after)
        end
    end.
Proof.
  unfold BillingsAPIView.list, ListModelMixin_list,
    BillingsAPIView.get_queryset, SmartTransactionListMixin.get_queryset,
    SortableListMixin.get_queryset, TransactionFilterMixin.get_queryset,
    DateRangeMixin.get_queryset, SearchableListMixin.get_queryset,
    BillingsQuerysetMixin.get_queryset, by_customer,
    StatementBalancePagination.paginate_queryset, get_statement_balance,
    PageNumberPagination.paginate_queryset, billings_queryset, sort_stage,
    filter_stage.
  run.
  destruct (statement_balance_rule _ _ _) as [[amount unit]|e]; simpl;
    [|reflexivity].
  destruct (page_of _ _ _) as [[p|]|e]; reflexivity.
Qed.

(** The statement balance request, step by step. *)
Lemma statement_balance_get_unfold (MD : Models) (v : View.t) (w : World) :
  StatementBalanceAPIView.get v w
  = let org := View.organization v in
    let after :=
      mkWorld (ledger w)
              (trace w ++ [call_get_statement_balance org None]) in
    match statement_balance_rule (ledger w) org None with
    | Raise e => (Raise e, after)
    | Ok (amount, unit) =>
        (Ok (mkResponse HTTP_200_OK (Some (JDict [
           ("balance_amount", JInt amount);
           ("balance_unit", JStr unit)]))),
         after)
    end.
Proof.
  unfold StatementBalanceAPIView.get, get_statement_balance. run.
  destruct (statement_balance_rule _ _ _) as [[amount unit]|e];
    reflexivity.
Qed.

(** X7. The balance of the billings envelope depends on the
    organization alone: two billings requests for the same organization
    carry the same balance and unit whatever their date range, search
    term, order, page and page size. *)
Theorem billings_balance_ignores_filters :
  forall (MD : Models) (FW : Framework) (v1 v2 : View.t) (w : World)
         (r1 r2 : Response) (w1 w2 : World),
    View.organization v1 = View.organization v2 ->
    BillingsAPIView.list v1 w = (Ok r1, w1) ->
    BillingsAPIView.list v2 w = (Ok r2, w2) ->
    (forall b1 b2, body_field r1 "balance" = Some b1 ->
                   body_field r2 "balance" = Some b2 -> b1 = b2)
    /\ (forall u1 u2, body_field r1 "unit" = Some u1 ->
                      body_field r2 "unit" = Some u2 -> u1 = u2).
Proof.
  intros MD FW v1 v2 w r1 r2 w1 w2 Horg.
  rewrite !billings_list_unfold. cbv zeta. rewrite Horg.
  destruct (statement_balance_rule _ _ _) as [[amount unit]|e];
    [|discriminate].
  destruct (page_of (View.page_size v1) _ _) as [[p1|]|e1];
    [| |discriminate];
    (destruct (page_of (View.page_size v2) _ _) as [[p2|]|e2];
     [| |discriminate]);
    intros H1 H2; injection H1 as <- _; injection H2 as <- _;
    unfold body_field; simpl; split; intros x y Hx Hy;
    try discriminate; injection Hx as <-; injection Hy as <-;
    reflexivity.
Qed.

Lemma billings_balance_ignores_filters_witness :
  let early := Fixture.view [("q", "charge")] Fixture.xia (Some 3) 2 in
  let late := Fixture.view [("page", "1")] Fixture.xia (Some 50) 1 in
  let run1 := @BillingsAPIView.list Fixture.models Fixture.framework
                early Fixture.world in
  let run2 := @BillingsAPIView.list Fixture.models Fixture.framework
                late Fixture.world in
  body_field (response_of run1) "count" = Some (JInt 0)
  /\ body_field (response_of run2) "count" = Some (JInt 1)
  /\ body_field (response_of run1) "balance" = Some (JInt 100)
  /\ (forall b1 b2,
        body_field (response_of run1) "balance" = Some b1 ->
        body_field (response_of run2) "balance" = Some b2 -> b1 = b2).
Proof.
  intros early late run1 run2.
  split; [reflexivity|]. split; [reflexivity|]. split; [reflexivity|].
  exact (proj1 (billings_balance_ignores_filters
                  Fixture.models Fixture.framework early late Fixture.world
                  (response_of run1) (response_of run2)
                  (snd run1) (snd run2) eq_refl eq_refl eq_refl)).
Defined.

(** X8. The billings envelope and the balance endpoint agree: on the
    same ledger and for the same organization, the balance and unit of
    a billings envelope are the [balance_amount] and [balance_unit] the
    balance endpoint answers; and when the statement-balance rule fails,
    both requests fail with its error. *)
Theorem billings_balance_is_statement_balance :
  forall (MD : Models) (FW : Framework) (v : View.t) (w : World),
    (forall r w',
        BillingsAPIView.list v w = (Ok r, w') ->
        exists r',
          fst (StatementBalanceAPIView.get v w) = Ok r'
          /\ (forall b, body_field r "balance" = Some b ->
                        body_field r' "balance_amount" = Some b)
          /\ (forall u, body_field r "unit" = Some u ->
                        body_field r' "balance_unit" = Some u))
    /\ (forall e,
          statement_balance_rule (ledger w) (View.organization v) None
            = Raise e ->
          fst (BillingsAPIView.list v w) = Raise e
          /\ fst (StatementBalanceAPIView.get v w) = Raise e).
Proof.
  intros MD FW v w.
  rewrite billings_list_unfold, statement_balance_get_unfold. cbv zeta.
  split.
  - intros r w'.
    destruct (statement_balance_rule _ _ _) as [[amount unit]|e];
      [|discriminate].
    destruct (page_of _ _ _) as [[p|]|e]; [| |discriminate];
      intros H; injection H as <- _; eexists;
      (split; [reflexivity|]); unfold body_field; simpl;
      split; intros x Hx; try discriminate; injection Hx as <-;
      reflexivity.
  - intros e ->. split; reflexivity.
Qed.

Lemma billings_balance_is_statement_balance_witness :
  exists r',
    fst (@StatementBalanceAPIView.get Fixture.models
           Fixture.billings_view Fixture.world) = Ok r'
    /\ body_field r' "balance_amount" = Some (JInt 100)
    /\ body_field r' "balance_unit" = Some (JStr "usd").
Proof.
  destruct (proj1 (billings_balance_is_statement_balance
                     Fixture.models Fixture.framework
                     Fixture.billings_view Fixture.world)
                  (response_of
                     (@BillingsAPIView.list Fixture.models Fixture.framework
                        Fixture.billings_view Fixture.world))
                  (snd (@BillingsAPIView.list Fixture.models
                          Fixture.framework
                          Fixture.billings_view Fixture.world))
                  eq_refl)
    as (r' & Hget & Hamount & Hunit).
  exists r'. split; [exact Hget|]. split.
  - apply Hamount. reflexivity.
  - apply Hunit. reflexivity.
Defined.

(** ** Transfers: what the handler lets through *)

(** The inherited transfers list, step by step. *)
Lemma transfer_super_list_unfold (MD : Models) (FW : Framework)
    (v : View.t) (w : World) :
  TransferListAPIView.super_list v w
  = let org := View.organization v in
    let reconcile := negb (force_flag (View.request v)) in
    let after :=
      mkWorld (ledger w) (trace w ++ [call_get_transfers org reconcile]) in
    match get_transfers_rule (ledger w) org reconcile with
    | Raise e => (Raise e, after)
    | Ok transfers =>
        let queryset := transfers_queryset v transfers in
        match page_of (View.page_size v)
                (QueryDict.lookup (GET (View.request v)) "page")
                queryset with
        | Raise e => (Raise e, after)
        | Ok None =>
            (Ok (mkResponse HTTP_200_OK
                   (Some (JList (map TransactionSerializer queryset)))),
             after)
        | Ok (Some p) =>
            (Ok (mkResponse HTTP_200_OK (Some (JDict [
               ("count", JInt (count p));
               ("next", json_of_link (get_next_link (View.request v) p));
               ("previous",
                json_of_link (get_previous_link (View.request v) p));
               ("results",
                JList (map TransactionSerializer (object_list p)))]))),
             after)
        end
    end.
Proof.
  unfold TransferListAPIView.super_list, ListModelMixin_list,
    TransferListAPIView.get_queryset, SmartTransactionListMixin.get_queryset,
    SortableListMixin.get_queryset, TransactionFilterMixin.get_queryset,
    DateRangeMixin.get_queryset, SearchableListMixin.get_queryset.
  unfold bind at 1 2 3 4. rewrite transfer_get_queryset_run.
  unfold PageNumberPagination.paginate,
    PageNumberPagination.paginate_queryset, transfers_queryset, sort_stage,
    filter_stage.
  destruct (get_transfers_rule _ _ _) as [transfers|e]; [|reflexivity].
  run. destruct (page_of _ _ _) as [[p|]|e]; reflexivity.
Qed.

(** X9. The transfers list translates [ProcessorError] and nothing
    else: an answer of the inherited list is returned as it is, and any
    other error, raised while the transfers are fetched or while the
    page is cut, leaves the view unchanged, so an invalid page stays a
    404. *)
Theorem transfer_list_lets_other_outcomes_through :
  forall (MD : Models) (FW : Framework) (v : View.t) (w : World),
    let org := View.organization v in
    let reconcile := negb (force_flag (View.request v)) in
    let after :=
      mkWorld (ledger w) (trace w ++ [call_get_transfers org reconcile]) in
    (forall r w',
        TransferListAPIView.super_list v w = (Ok r, w') ->
        TransferListAPIView.list v w = (Ok r, w'))
    /\ (forall e,
          get_transfers_rule (ledger w) org reconcile = Raise e ->
          (forall m, e <> ProcessorError m) ->
          TransferListAPIView.list v w = (Raise e, after))
    /\ (forall transfers e,
          get_transfers_rule (ledger w) org reconcile = Ok transfers ->
          page_of (View.page_size v)
                  (QueryDict.lookup (GET (View.request v)) "page")
                  (transfers_queryset v transfers) = Raise e ->
          (forall m, e <> ProcessorError m) ->
          TransferListAPIView.list v w = (Raise e, after)
          /\ fst (dispatch (TransferListAPIView.list v) w)
             = exception_response e).
Proof.
  intros MD FW v w org reconcile after.
  unfold dispatch, TransferListAPIView.list, try_except.
  rewrite transfer_super_list_unfold. cbv zeta. fold org reconcile after.
  split; [|split].
  - intros r w' ->. reflexivity.
  - intros e -> Hnot. destruct e; try reflexivity.
    exfalso. exact (Hnot _ eq_refl).
  - intros transfers e -> -> Hnot. destruct e; try (split; reflexivity).
    exfalso. exact (Hnot _ eq_refl).
Qed.

Lemma transfer_list_lets_other_outcomes_through_witness :
  let v := Fixture.view [("page", "9")] Fixture.xia None 5 in
  @TransferListAPIView.list Fixture.models Fixture.framework v Fixture.world
  = (Raise (NotFound "Invalid page."),
     mkWorld Fixture.the_ledger [call_get_transfers Fixture.xia true])
  /\ status (fst (dispatch
                    (@TransferListAPIView.list Fixture.models
                       Fixture.framework v) Fixture.world)) = 404.
Proof.
  intros v.
  destruct (proj2 (proj2 (transfer_list_lets_other_outcomes_through
                            Fixture.models Fixture.framework v
                            Fixture.world))
                  [Fixture.t_ab; Fixture.t_ba] (NotFound "Invalid page.")
                  eq_refl eq_refl ltac:(discriminate))
    as [Hlist Hdispatch].
  split; [exact Hlist|]. rewrite Hdispatch. reflexivity.
Defined.

(** ** Receivables: order, sign and errors of the total *)

(** The receivables list request, step by step. *)
Lemma receivables_list_unfold (MD : Models) (FW : Framework)
    (v : View.t) (w : World) :
  ReceivablesListAPIView.list v w
  = let queryset := receivables_queryset v (ledger w) in
    let after :=
      mkWorld (ledger w)
        ((trace w ++ [call_receivables (View.provider v)])
         ++ [call_sum_orig_amount queryset]) in
    match sum_orig_amount_rule queryset with
    | Raise e => (Raise e, after)
    | Ok tot =>
        match page_of (View.page_size v)
                (QueryDict.lookup (GET (View.request v)) "page")
                (sort_stage v queryset) with
        | Raise e => (Raise e, after)
        | Ok None =>
            (Ok (mkResponse HTTP_200_OK
                   (Some (JList (map TransactionSerializer
                                     (sort_stage v queryset))))),
             after)
        | Ok (Some p) =>
            (Ok (mkResponse HTTP_200_OK (Some (JDict [
               ("ends_at", json_of_datetime (View.ends_at v));
               ("total", JInt (Totals.amount tot));
               ("unit", JStr (Totals.unit tot));
               ("count", JInt (count p));
               ("next", json_of_link (get_next_link (View.request v) p));
               ("previous",
                json_of_link (get_previous_link (View.request v) p));
               ("results",
                JList (map TransactionSerializer (object_list p)))]))),
             after)
        end
    end.
Proof.
  unfold ReceivablesListAPIView.list, ListModelMixin_list,
    ReceivablesListAPIView.get_queryset, SortableListMixin.get_queryset,
    TotalAnnotateMixin.get_queryset.
  unfold bind at 1 2 3. rewrite receivables_scoped_queryset_run.
  unfold sum_orig_amount, TotalPagination.paginate_queryset,
    PageNumberPagination.paginate_queryset. run.
  destruct (sum_orig_amount_rule _) as [tot|e]; simpl; [|reflexivity].
  change (sort_order ReceivablesListAPIView.sort_fields_aliases
            (QueryDict.lookup (GET (View.request v)) "o")
            (QueryDict.lookup (GET (View.request v)) "ot")
            (receivables_queryset v (ledger w)))
    with (sort_stage v (receivables_queryset v (ledger w))).
  destruct (page_of _ _ _) as [[p|]|e]; reflexivity.
Qed.

Lemma receivables_queryset_same_but_order (MD : Models) (FW : Framework)
    (v1 v2 : View.t) (l : Ledger) :
  same_query_but ["o"; "ot"; "page"] v1 v2 ->
  receivables_queryset v1 l = receivables_queryset v2 l.
Proof.
  intros (_ & Hprov & Hstart & Hends & Hget).
  unfold receivables_queryset, filter_stage.
  rewrite Hprov, Hstart, Hends, (Hget "q"); [reflexivity|].
  simpl. intros [H|[H|[H|[]]]]; discriminate.
Qed.

(** X10. The receivables total is taken before the rows are ordered:
    two requests that differ in the order parameters [o] and [ot] (and
    in the page) get the same total and unit from the same sum call,
    whatever order the rows come back in. *)
Theorem receivables_total_ignores_order :
  forall (MD : Models) (FW : Framework) (v1 v2 : View.t) (w : World)
         (r1 r2 : Response) (w1 w2 : World),
    same_query_but ["o"; "ot"; "page"] v1 v2 ->
    ReceivablesListAPIView.list v1 w = (Ok r1, w1) ->
    ReceivablesListAPIView.list v2 w = (Ok r2, w2) ->
    (forall b1 b2, body_field r1 "total" = Some b1 ->
                   body_field r2 "total" = Some b2 -> b1 = b2)
    /\ (forall u1 u2, body_field r1 "unit" = Some u1 ->
                      body_field r2 "unit" = Some u2 -> u1 = u2)
    /\ w1 = w2.
Proof.
  intros MD FW v1 v2 w r1 r2 w1 w2 Hsame.
  rewrite !receivables_list_unfold. cbv zeta.
  rewrite <- (receivables_queryset_same_but_order MD FW v1 v2 (ledger w)
                Hsame).
  destruct Hsame as (_ & <- & _).
  destruct (sum_orig_amount_rule _) as [tot|e]; [|discriminate].
  destruct (page_of (View.page_size v1) _ _) as [[p1|]|e1];
    [| |discriminate];
    (destruct (page_of (View.page_size v2) _ _) as [[p2|]|e2];
     [| |discriminate]);
    intros H1 H2; injection H1 as <- <-; injection H2 as <- <-;
    unfold body_field; simpl; repeat split; intros x y Hx Hy;
    try discriminate; injection Hx as <-; injection Hy as <-;
    reflexivity.
Qed.

Lemma receivables_total_ignores_order_witness :
  let plain := Fixture.view [] Fixture.xia None 2 in
  let by_amount :=
    Fixture.view [("o", "amount"); ("ot", "desc")] Fixture.xia None 2 in
  let run1 := @ReceivablesListAPIView.list Fixture.models
                Scenarios.sorting_framework plain Fixture.world in
  let run2 := @ReceivablesListAPIView.list Fixture.models
                Scenarios.sorting_framework by_amount Fixture.world in
  body_field (response_of run1) "results"
    = Some (JList (map Fixture.serializer
                       [Fixture.t_ba; Fixture.t_pending]))
  /\ body_field (response_of run2) "results"
     = Some (JList (map Fixture.serializer
                        [Fixture.t_pending; Fixture.t_ba]))
  /\ body_field (response_of run1) "total" = Some (JInt 100)
  /\ (forall b1 b2,
        body_field (response_of run1) "total" = Some b1 ->
        body_field (response_of run2) "total" = Some b2 -> b1 = b2).
Proof.
  intros plain by_amount run1 run2.
  split; [reflexivity|]. split; [reflexivity|]. split; [reflexivity|].
  refine (proj1 (receivables_total_ignores_order
                   Fixture.models Scenarios.sorting_framework
                   plain by_amount Fixture.world
                   (response_of run1) (response_of run2)
                   (snd run1) (snd run2) _ eq_refl eq_refl)).
  repeat split. intros k Hk. cbn -[String.eqb].
  destruct (String.eqb_spec "ot" k) as [E|_].
  - exfalso. apply Hk. right. left. exact E.
  - destruct (String.eqb_spec "o" k) as [E|_]; [|reflexivity].
    exfalso. apply Hk. left. exact E.
Defined.

Lemma sum_of_positive_amounts (queryset : QuerySet) :
  Forall (fun t => 0 < orig_amount t) queryset ->
  0 <= fold_right Z.add 0 (map orig_amount queryset)
  /\ (fold_right Z.add 0 (map orig_amount queryset) = 0 -> queryset = []).
Proof.
  induction 1 as [|t queryset Ht _ [IH _]]; simpl.
  - split; [lia | reflexivity].
  - split; [lia | intros Hzero; lia].
Qed.

(** X11. The receivables total is never negative: when the sum rule
    answers the arithmetic sum of the [orig_amount] of the rows it is
    given, the total of the envelope is at least zero, and it is zero
    only when no row is in scope. The scoping stages are assumed to only
    select rows of their input. *)
Theorem receivables_total_not_negative :
  forall (MD : Models) (FW : Framework) (v : View.t) (w : World)
         (r : Response) (w' : World) (x : Z),
    scoping_selects ->
    (forall queryset tot,
        sum_orig_amount_rule queryset = Ok tot ->
        Totals.amount tot = fold_right Z.add 0 (map orig_amount queryset)) ->
    ReceivablesListAPIView.list v w = (Ok r, w') ->
    body_field r "total" = Some (JInt x) ->
    0 <= x /\ (x = 0 -> receivables_queryset v (ledger w) = []).
Proof.
  intros MD FW v w r w' x [Hdate Hsearch] Hrule Hlist Htotal.
  apply receivables_list_run in Hlist. simpl in Hlist.
  destruct Hlist as (tot & Hsum & Hbody & _).
  apply Hbody in Htotal. injection Htotal as ->.
  rewrite (Hrule _ _ Hsum).
  apply sum_of_positive_amounts, Forall_forall. intros t Ht.
  unfold receivables_queryset, filter_stage in Ht.
  apply Hdate, Hsearch, filter_In in Ht. destruct Ht as [_ Ht].
  unfold orig_amount__gt in Ht. apply Z.ltb_lt in Ht. exact Ht.
Qed.

Lemma spec_sum_orig_amount_is_sum (queryset : QuerySet) (tot : Totals.t) :
  SpecModel.sum_orig_amount queryset = Ok tot ->
  Totals.amount tot = fold_right Z.add 0 (map orig_amount queryset).
Proof.
  unfold SpecModel.sum_orig_amount, SpecModel.sum_amounts.
  destruct queryset as [|t rest].
  - intros H. injection H as <-. reflexivity.
  - destruct (forallb _ rest); [|discriminate].
    intros H. injection H as <-. reflexivity.
Defined.

Lemma receivables_total_not_negative_witness :
  0 <= 100
  /\ (100 = 0 ->
      @receivables_queryset Fixture.models Fixture.framework
        Fixture.first_page Fixture.the_ledger = []).
Proof.
  exact (receivables_total_not_negative
           Fixture.models Fixture.framework Fixture.first_page Fixture.world
           (response_of
              (@ReceivablesListAPIView.list Fixture.models Fixture.framework
                 Fixture.first_page Fixture.world))
           (snd (@ReceivablesListAPIView.list Fixture.models
                   Fixture.framework Fixture.first_page Fixture.world))
           100 fixture_scoping_selects spec_sum_orig_amount_is_sum
           eq_refl eq_refl).
Defined.

(** X12. On the receivables list the sum comes first: an error of
    [sum_orig_amount] ends the request before any page is cut, and an
    invalid page ends it after the sum has been called; neither error is
    caught. *)
Theorem receivables_errors_propagate :
  forall (MD : Models) (FW : Framework) (v : View.t) (w : World),
    let queryset := receivables_queryset v (ledger w) in
    let after :=
      mkWorld (ledger w)
        (trace w ++ [call_receivables (View.provider v);
                     call_sum_orig_amount queryset]) in
    (forall e,
        sum_orig_amount_rule queryset = Raise e ->
        ReceivablesListAPIView.list v w = (Raise e, after))
    /\ (forall tot e,
          sum_orig_amount_rule queryset = Ok tot ->
          page_of (View.page_size v)
                  (QueryDict.lookup (GET (View.request v)) "page")
                  (sort_stage v queryset) = Raise e ->
          ReceivablesListAPIView.list v w = (Raise e, after)).
Proof.
  intros MD FW v w queryset after.
  rewrite receivables_list_unfold. cbv zeta. fold queryset.
  unfold after. rewrite <- app_assoc. simpl.
  split.
  - intros e ->. reflexivity.
  - intros tot e -> ->. reflexivity.
Qed.

Lemma receivables_errors_propagate_witness :
  let v := Fixture.view [] Fixture.cowork None 2 in
  (exists e,
      fst (@ReceivablesListAPIView.list Fixture.models Fixture.framework
             v Scenarios.mixed_world) = Raise (ValidationError e))
  /\ fst (@ReceivablesListAPIView.list Fixture.models Fixture.framework
            (Fixture.view [("page", "9")] Fixture.cowork None 2)
            Scenarios.conversion_world)
     = Raise (NotFound "Invalid page.").
Proof.
  intros v. split.
  - eexists.
    rewrite (proj1 (receivables_errors_propagate
                      Fixture.models Fixture.framework v
                      Scenarios.mixed_world) _ eq_refl).
    reflexivity.
  - rewrite (proj2 (receivables_errors_propagate
                      Fixture.models Fixture.framework
                      (Fixture.view [("page", "9")] Fixture.cowork None 2)
                      Scenarios.conversion_world)
                   (Totals.mk 100 "eur") (NotFound "Invalid page.")
                   eq_refl eq_refl).
    reflexivity.
Defined.

(** X13. An answer of the transfers list is a plain page or a plain
    list: it never carries a balance, a total, a unit or an [ends_at]. *)
Theorem transfer_list_has_no_aggregate :
  forall (MD : Models) (FW : Framework) (v : View.t) (w : World)
         (r : Response) (w' : World),
    TransferListAPIView.list v w = (Ok r, w') ->
    body_field r "balance" = None
    /\ body_field r "total" = None
    /\ body_field r "unit" = None
    /\ body_field r "ends_at" = None.
Proof.
  intros MD FW v w r w'.
  unfold TransferListAPIView.list, try_except.
  rewrite transfer_super_list_unfold. cbv zeta.
  destruct (get_transfers_rule _ _ _) as [transfers|e];
    [|destruct e; discriminate].
  destruct (page_of _ _ _) as [[p|]|e]; [| |destruct e; discriminate];
    intros H; injection H as <- _; repeat split.
Qed.

Lemma transfer_list_has_no_aggregate_witness :
  let run := @TransferListAPIView.list Fixture.models Fixture.framework
               (Fixture.view [] Fixture.xia None 5) Fixture.world in
  body_field (response_of run) "count" = Some (JInt 2)
  /\ body_field (response_of run) "balance" = None.
Proof.
  intros run. split; [reflexivity|].
  exact (proj1 (transfer_list_has_no_aggregate
                  Fixture.models Fixture.framework
                  (Fixture.view [] Fixture.xia None 5) Fixture.world
                  (response_of run) (snd run) eq_refl)).
Defined.

(** ** Cancellation, then the balance *)


